(** * hubot-route53: zone and record resolution of [lib/common.js]

    A shallow embedding of the helpers and of the [callOn] table of
    [src/lib/common.js], and the properties of the specification proved
    (or refuted) on it.

    Modelling conventions.
    - A JavaScript string is a [string]; a value that may be [undefined]
      is an [option].
    - The provider (the Route53 client reached through the call context)
      is a scripted client: the context carries the reply the provider
      gives to [listHostedZones], the queue of replies it gives to the
      successive [listResourceRecordSets] requests, and the reply to
      [changeResourceRecordSets].  Every theorem quantifies over these
      replies, hence over every provider behaviour.
    - The callbacks of the source are continuations; an operation is
      modelled by the provider calls it issues, the continuation it
      finally invokes (with its argument), and the context it leaves. *)

From Stdlib Require Import Strings.String Strings.Ascii Lists.List Bool Arith Lia.
Import ListNotations.
Open Scope string_scope.
Open Scope list_scope.

Set Implicit Arguments.

(* ================================================================== *)
(** ** lodash helpers used by the source *)

Module Lodash.

(** [_.endsWith(string, target)] with the default position: the slice of
    [string] of the length of [target] that ends at the end of [string]
    is [target]. *)
Definition endsWith (s target : string) : bool :=
  let len := String.length s in
  let tlen := String.length target in
  (tlen <=? len)%nat && (substring (len - tlen) tlen s =? target).

(** [_.find(collection, predicate)]: the first element, in order, on
    which the predicate holds; [undefined] when there is none. *)
Fixpoint find {A : Type} (collection : list A) (predicate : A -> bool)
  : option A :=
  match collection with
  | [] => None
  | x :: rest => if predicate x then Some x else find rest predicate
  end.

End Lodash.

(* ================================================================== *)
(** ** Names and types: lines 14-36 *)

(** The double quote character, used in one error message. *)
Definition dquote : string := String (ascii_of_nat 34) EmptyString.

(** [patterns.valid_types], the alternatives of the regular expression
    ['(SOA|AAAA|A|TXT|NS|CNAME|MX|PTR|SRV|SPF)']. *)
Definition valid_types : list string :=
  ["SOA"; "AAAA"; "A"; "TXT"; "NS"; "CNAME"; "MX"; "PTR"; "SRV"; "SPF"].

(** Canonicalisation of a character under the [i] flag of a regular
    expression without the [u] flag: the upper case of the character;
    only the letters [a]-[z] have an upper case below 128. *)
Definition canonicalize (c : ascii) : ascii :=
  let n := nat_of_ascii c in
  if ((97 <=? n) && (n <=? 122))%nat then ascii_of_nat (n - 32) else c.

Fixpoint canonicalize_string (s : string) : string :=
  match s with
  | EmptyString => EmptyString
  | String c rest => String (canonicalize c) (canonicalize_string rest)
  end.

(** What [RegExp.prototype.test] makes of its argument: [undefined] is
    converted to the string ["undefined"]. *)
Definition js_to_string (v : option string) : string :=
  match v with
  | Some s => s
  | None => "undefined"
  end.

(** [new RegExp('^' + patterns.valid_types + '$', 'i').test(v)]: the whole
    of the argument is one of the alternatives, letter case apart. *)
Definition valid_type_test (v : option string) : bool :=
  existsb
    (fun alt => canonicalize_string alt =? canonicalize_string (js_to_string v))
    valid_types.

(** The statement [if (! _.endsWith(n, '.')) n += '.';], which the source
    repeats for every name it compares (lines 22, 23, 89, 100). *)
Definition normalize (n : string) : string :=
  if negb (Lodash.endsWith n ".") then n ++ "." else n.

Definition recordNameMatch (n1 n2 : string) : bool :=
  let n1 := normalize n1 in
  let n2 := normalize n2 in
  n1 =? n2.

(** an undefined type match any type *)
Definition recordTypeMatch (t1 t2 : option string) : bool :=
  match t1, t2 with
  | None, _ => true
  | _, None => true
  | Some a, Some b => a =? b
  end.

(** The two object literals that [nextRecordMatch] receives: the query
    [{Name: rr_name, Type: rr_type}] and the provider's next cursor
    [{Name: data.NextRecordName, Type: data.NextRecordType}]. *)
Record RecordQuery : Type := mkQuery {
  qName : string;
  qType : option string
}.

Record Cursor : Type := mkCursor {
  cName : option string;
  cType : option string
}.

Definition nextRecordMatch (r1 : RecordQuery) (r2 : Cursor) : bool :=
  match cName r2, cType r2 with
  | Some name2, Some type2 =>
      if negb (recordNameMatch (qName r1) name2) then false
      else recordTypeMatch (qType r1) (Some type2)
  | _, _ => false
  end.

(* ================================================================== *)
(** ** Data of the provider interface *)

Module HostedZone.
Record t : Type := make {
  Id : string;
  Name : string
}.
End HostedZone.

Module ResourceRecordSet.
(** [Name] and [Type] are the fields the source reads; [Payload] stands
    for the rest of the record set (TTL, values or alias target), which
    the source only passes along. *)
Record t : Type := make {
  Name : string;
  Type_ : string;
  Payload : list string
}.
End ResourceRecordSet.

(** The parameters of [listResourceRecordSets].  A field that the object
    does not carry is [None]. *)
Record ListRequest : Type := mkListRequest {
  HostedZoneId : option string;
  MaxItems : option string;
  StartRecordName : option string;
  StartRecordType : option string
}.

(** A key of an object literal given as request options: the object may
    not have the key at all, or have it with a value, which may itself be
    [undefined]. *)
Inductive Key : Type :=
| absent
| present (value : option string).

(** The [request_options] of [zoneRecords], key by key. *)
Record RequestOptions : Type := mkRequestOptions {
  optHostedZoneId : Key;
  optMaxItems : Key;
  optStartRecordName : Key;
  optStartRecordType : Key
}.

(** [_.extend(base, source)]: every key that [source] has is copied onto
    [base] with its value, an [undefined] value included; the keys that
    [source] does not have keep the value of [base]. *)
Definition extend (base : ListRequest) (source : RequestOptions)
  : ListRequest :=
  let assign (k : Key) (current : option string) :=
    match k with
    | present v => v
    | absent => current
    end in
  {| HostedZoneId := assign (optHostedZoneId source) (HostedZoneId base);
     MaxItems := assign (optMaxItems source) (MaxItems base);
     StartRecordName := assign (optStartRecordName source) (StartRecordName base);
     StartRecordType := assign (optStartRecordType source) (StartRecordType base) |}.

(** The empty object [{}]. *)
Definition empty_request : RequestOptions :=
  {| optHostedZoneId := absent; optMaxItems := absent;
     optStartRecordName := absent; optStartRecordType := absent |}.

(** The [data] of a [listResourceRecordSets] response. *)
Record Page : Type := mkPage {
  ResourceRecordSets : list ResourceRecordSet.t;
  IsTruncated : bool;
  NextRecordName : option string;
  NextRecordType : option string
}.

(** The parameters of [changeResourceRecordSets]. *)
Record Change : Type := mkChange {
  Action : string;
  ResourceRecordSet_ : ResourceRecordSet.t
}.

Record ChangeBatch_t : Type := mkChangeBatch {
  Changes : list Change;
  Comment : option string
}.

Record ChangeRequest : Type := mkChangeRequest {
  ChangeHostedZoneId : string;
  ChangeBatch : ChangeBatch_t
}.

(** A provider operation either succeeds with data or fails with a
    message. *)
Inductive Reply (A : Type) : Type :=
| Success (data : A)
| Failure (message : string).
Arguments Failure {A} message.

(** The scripted provider: what it answers to [listHostedZones], to the
    successive [listResourceRecordSets] requests (a queue; when it is
    exhausted the provider never answers), and to
    [changeResourceRecordSets]. *)
Record Provider : Type := mkProvider {
  hostedZones : Reply (list HostedZone.t);
  recordSetPages : list (Reply Page);
  changeResult : Reply string
}.

(** The call context [ctx]: the cached zone and the provider
    operations. *)
Record Context : Type := mkContext {
  zone : option HostedZone.t;
  api : Provider
}.

Definition set_zone (ctx : Context) (target : HostedZone.t) : Context :=
  {| zone := Some target; api := api ctx |}.

Definition set_pages (ctx : Context) (rest : list (Reply Page)) : Context :=
  {| zone := zone ctx;
     api := {| hostedZones := hostedZones (api ctx);
               recordSetPages := rest;
               changeResult := changeResult (api ctx) |} |}.

(** The requests an operation sends to the provider, in order. *)
Inductive ProviderCall : Type :=
| listHostedZones
| listResourceRecordSets (params : ListRequest)
| changeResourceRecordSets (params : ChangeRequest).

(** The two error continuations: the [errback] argument of the operation
    and [ctx.defaultErrorHandler]. *)
Inductive ErrorHandler : Type :=
| errbackArgument
| defaultErrorHandler.

(** [errback || ctx.defaultErrorHandler] *)
Definition or_default (errback : option ErrorHandler) : ErrorHandler :=
  match errback with
  | Some h => h
  | None => defaultErrorHandler
  end.

(** The continuation an operation ends in. *)
Inductive Outcome (A : Type) : Type :=
| Callback (result : A)
| Errback (handler : ErrorHandler) (message : string)
| NoReply.
Arguments Errback {A} handler message.
Arguments NoReply {A}.

Record Run (A : Type) : Type := mkRun {
  calls : list ProviderCall;
  outcome : Outcome A;
  context : Context
}.

(** The error messages of the source, under the names of the
    specification. *)
Definition ZoneNotFound : string := "Zone not found".
Definition InvalidType (supplied : option string) : string :=
  "Bad record type supplied " ++ dquote ++ js_to_string supplied ++ dquote.
Definition AmbiguousSelection : string := "Aambiguous records selection".
Definition TypeMismatch : string := "No such record name with specified type".
Definition RecordNotFound : string := "No such record with given name".

(* ================================================================== *)
(** ** The [callOn] table: lines 45-217 *)

Definition zoneWhere (predicate : HostedZone.t -> bool)
    (errback : option ErrorHandler) (ctx : Context) : Run HostedZone.t :=
  let errback := or_default errback in
  let lookup :=
    match hostedZones (api ctx) with
    | Success zones =>
        match Lodash.find zones predicate with
        | None => mkRun [listHostedZones] (Errback errback ZoneNotFound) ctx
        | Some target =>
            mkRun [listHostedZones] (Callback target) (set_zone ctx target)
        end
    | Failure r => mkRun [listHostedZones] (Errback errback r) ctx
    end in
  match zone ctx with
  | Some z => if predicate z then mkRun [] (Callback z) ctx else lookup
  | None => lookup
  end.

Definition zoneNamed_predicate (zoneName : string) (z : HostedZone.t) : bool :=
  HostedZone.Name z =? zoneName.

Definition zoneNamed (zoneName : string) (errback : option ErrorHandler)
    (ctx : Context) : Run HostedZone.t :=
  let zoneName := normalize zoneName in
  zoneWhere (zoneNamed_predicate zoneName) errback ctx.

Definition hostZone_predicate (host : string) (z : HostedZone.t) : bool :=
  Lodash.endsWith host ("." ++ HostedZone.Name z).

(** execute on zone which contains given host *)
Definition hostZone (host : string) (errback : option ErrorHandler)
    (ctx : Context) : Run HostedZone.t :=
  let host := normalize host in
  zoneWhere (hostZone_predicate host) errback ctx.

(** The callback that [resourceRecord] gives to [listResourceRecordSets]
    (lines 132-151), applied to the provider's reply. *)
Definition resourceRecord_reply (rr_name : string) (rr_type : option string)
    (errback : ErrorHandler) (reply : Reply Page)
  : Outcome ResourceRecordSet.t :=
  match reply with
  | Failure message => Errback errback message
  | Success data =>
      match nth_error (ResourceRecordSets data) 0 with
      | Some result =>
          if recordNameMatch rr_name (ResourceRecordSet.Name result) then
            if recordTypeMatch rr_type (Some (ResourceRecordSet.Type_ result))
            then
              if nextRecordMatch
                   {| qName := rr_name; qType := rr_type |}
                   {| cName := NextRecordName data;
                      cType := NextRecordType data |}
              then Errback errback AmbiguousSelection
              else Callback result
            else Errback errback TypeMismatch
          else Errback errback RecordNotFound
      | None => Errback errback RecordNotFound
      end
  end.

(** The request of line 126. *)
Definition resourceRecord_request (z : HostedZone.t) (rr_name : string)
    (rr_type : option string) : ListRequest :=
  {| HostedZoneId := Some (HostedZone.Id z);
     MaxItems := Some "1";
     StartRecordName := Some rr_name;
     StartRecordType := rr_type |}.

(** Lines 125-152: the zone lookup and the bounded page request, once
    [rr_type] is settled.  [hostZone] is called with the zone callback
    only, so that its errors go to the default handler of the context. *)
Definition resourceRecord_resolve (rr_name : string) (rr_type : option string)
    (errback : ErrorHandler) (ctx : Context) : Run ResourceRecordSet.t :=
  let found := hostZone rr_name None ctx in
  match outcome found with
  | Callback z =>
      let ctx := context found in
      let params := resourceRecord_request z rr_name rr_type in
      let sent := calls found ++ [listResourceRecordSets params] in
      match recordSetPages (api ctx) with
      | [] => mkRun sent NoReply ctx
      | reply :: rest =>
          mkRun sent (resourceRecord_reply rr_name rr_type errback reply)
                (set_pages ctx rest)
      end
  | Errback handler message =>
      mkRun (calls found) (Errback handler message) (context found)
  | NoReply => mkRun (calls found) NoReply (context found)
  end.

Definition resourceRecord (rr_data : RecordQuery)
    (errback : option ErrorHandler) (ctx : Context)
  : Run ResourceRecordSet.t :=
  let rr_name := qName rr_data in
  let errback := or_default errback in
  (* It's important to not regard invalid user supplied record type as
     unspecified *)
  if valid_type_test (qType rr_data) then
    resourceRecord_resolve rr_name (qType rr_data) errback ctx
  else
    match qType rr_data with
    | Some _ => mkRun [] (Errback errback (InvalidType (qType rr_data))) ctx
    | None => resourceRecord_resolve rr_name None errback ctx
    end.

(** The [_options] of [zoneRecords]. *)
Record Options : Type := mkOptions {
  request_options : option RequestOptions;
  errback_option : option ErrorHandler;
  predicate : option (ResourceRecordSet.t -> bool)
}.

(** What an enumeration does, in order: a page request, a record passed
    to [callback], the call of [final_callback], the call of the error
    handler. *)
Inductive Event : Type :=
| Requested (params : ListRequest)
| Delivered (record : ResourceRecordSet.t)
| Finished
| Failed (handler : ErrorHandler) (message : string).

(** [! _options.predicate || _options.predicate(record)] *)
Definition selected (options : Options) (record : ResourceRecordSet.t) : bool :=
  match predicate options with
  | None => true
  | Some p => p record
  end.

(** The options of the recursive call of lines 177-185. *)
Definition next_options (options : Options) (data : Page) : Options :=
  {| request_options :=
       Some {| optHostedZoneId := absent; optMaxItems := absent;
               optStartRecordName := present (NextRecordName data);
               optStartRecordType := present (NextRecordType data) |};
     errback_option := errback_option options;
     predicate := predicate options |}.

(** The request of line 165. *)
Definition zoneRecords_request (z : HostedZone.t) (options : Options)
  : ListRequest :=
  extend
    {| HostedZoneId := Some (HostedZone.Id z); MaxItems := None;
       StartRecordName := None; StartRecordType := None |}
    (match request_options options with
     | Some o => o
     | None => empty_request
     end).

(** [zoneRecords] against the queue of replies of the provider: the
    events it produces and the replies it leaves unread. *)
Fixpoint zoneRecords_events (z : HostedZone.t) (options : Options)
    (replies : list (Reply Page)) : list Event * list (Reply Page) :=
  let hreq_opts := zoneRecords_request z options in
  let errback := or_default (errback_option options) in
  match replies with
  | [] => ([Requested hreq_opts], [])
  | Failure message :: rest =>
      ([Requested hreq_opts; Failed errback message], rest)
  | Success data :: rest =>
      let each :=
        map Delivered (filter (selected options) (ResourceRecordSets data)) in
      if IsTruncated data then
        let (more, unread) :=
          zoneRecords_events z (next_options options data) rest in
        (Requested hreq_opts :: each ++ more, unread)
      else
        (Requested hreq_opts :: each ++ [Finished], rest)
  end.

Definition zoneRecords (z : HostedZone.t) (options : Options) (ctx : Context)
  : list Event * Context :=
  let (events, unread) := zoneRecords_events z options (recordSetPages (api ctx)) in
  (events, set_pages ctx unread).

(** The [options] of [updateRecord]. *)
Record UpdateOptions : Type := mkUpdateOptions {
  update_errback : option ErrorHandler;
  comment : option string
}.

Definition updateRecord (z : HostedZone.t) (old _new : ResourceRecordSet.t)
    (options : UpdateOptions) (ctx : Context) : Run string :=
  let errback := or_default (update_errback options) in
  let params :=
    {| ChangeHostedZoneId := HostedZone.Id z;
       ChangeBatch :=
         {| Changes :=
              [ {| Action := "DELETE"; ResourceRecordSet_ := old |};
                {| Action := "CREATE"; ResourceRecordSet_ := _new |} ];
            Comment := comment options |} |} in
  mkRun [changeResourceRecordSets params]
        (match changeResult (api ctx) with
         | Failure message => Errback errback message
         | Success data => Callback data
         end)
        ctx.

(* ================================================================== *)
(** ** [currentZone]: lines 49-52 *)

(** A call either completes, with the run it made, or throws. *)
Inductive Completion (A : Type) : Type :=
| Completed (run : Run A)
| Thrown (message : string).
Arguments Thrown {A} message.

(** if there is a zone already defined in ctx, use that zone and call
    callback with it; [assert.notEqual(ctx.zone, undefined, ...)] throws
    an [AssertionError] with the given message otherwise.  The [errback]
    argument is not used. *)
Definition currentZone (errback : option ErrorHandler) (ctx : Context)
  : Completion HostedZone.t :=
  match zone ctx with
  | None => Thrown "Not zone found in this context"
  | Some z => Completed (mkRun [] (Callback z) ctx)
  end.

(* ================================================================== *)
(** ** The predicates as the specification words them *)

Module Spec.

(** The name ends with the trailing separator [.]. *)
Fixpoint ends_with_separator (name : string) : bool :=
  match name with
  | EmptyString => false
  | String c EmptyString => (c =? ".")%char
  | String _ rest => ends_with_separator rest
  end.

(** [normalize(name)]: append trailing separator if absent. *)
Definition normalize (name : string) : string :=
  if ends_with_separator name then name else name ++ ".".

(** [namesMatch(a, b)]: normalize both, compare for exact equality. *)
Definition namesMatch (a b : string) : bool :=
  normalize a =? normalize b.

(** [s] ends with [suffix]: [s] is [suffix], or what follows the first
    character of [s] ends with [suffix]. *)
Fixpoint ends_with (s suffix : string) : bool :=
  (s =? suffix)
  || match s with
     | EmptyString => false
     | String _ rest => ends_with rest suffix
     end.

(** [resolveZoneNamed(name)]: exact match after normalization, of the
    query name and of the zone's name. *)
Definition zoneNamed_predicate (name : string) (z : HostedZone.t) : bool :=
  namesMatch name (HostedZone.Name z).

(** [resolveZoneForHost(host)]: normalized host ends with [.] + zone's
    normalized name. *)
Definition hostZone_predicate (host : string) (z : HostedZone.t) : bool :=
  ends_with (normalize host) ("." ++ normalize (HostedZone.Name z)).

(** Two characters are the same letter case apart: they are equal, or
    one is a capital letter [A]-[Z] and the other the small letter at the
    same place of the alphabet. *)
Definition same_letter (a b : ascii) : bool :=
  let m := nat_of_ascii a in
  let n := nat_of_ascii b in
  (a =? b)%char
  || (((65 <=? m) && (m <=? 90) && (n =? m + 32))
      || ((65 <=? n) && (n <=? 90) && (m =? n + 32)))%nat.

(** Two strings are the same letter case apart: they have the same
    length and the same letters, place by place. *)
Fixpoint same_up_to_case (s t : string) : bool :=
  match s, t with
  | EmptyString, EmptyString => true
  | String a s', String b t' => same_letter a b && same_up_to_case s' t'
  | _, _ => false
  end.

End Spec.

(* ================================================================== *)
(** ** Reading a run of [zoneRecords] *)

(** The request that follows a truncated page: the zone, and the cursor
    the page declares. *)
Definition cursor_request (z : HostedZone.t) (data : Page) : ListRequest :=
  {| HostedZoneId := Some (HostedZone.Id z);
     MaxItems := None;
     StartRecordName := NextRecordName data;
     StartRecordType := NextRecordType data |}.

Definition requests_of (events : list Event) : list ListRequest :=
  flat_map (fun e => match e with Requested p => [p] | _ => [] end) events.

Definition delivered_of (events : list Event) : list ResourceRecordSet.t :=
  flat_map (fun e => match e with Delivered r => [r] | _ => [] end) events.

Definition finished_of (events : list Event) : list unit :=
  flat_map (fun e => match e with Finished => [tt] | _ => [] end) events.

Definition failures_of (events : list Event) : list (ErrorHandler * string) :=
  flat_map (fun e => match e with Failed h m => [(h, m)] | _ => [] end) events.

(* ================================================================== *)
(** ** Sample zones, records and provider scripts *)

Module Sample.

Definition example_com : HostedZone.t :=
  HostedZone.make "Z1EXAMPLE" "example.com.".

Definition sub_example_com : HostedZone.t :=
  HostedZone.make "Z2SUB" "sub.example.com.".

(** A zone whose name the provider gives without the trailing dot. *)
Definition undotted : HostedZone.t :=
  HostedZone.make "Z3UNDOTTED" "example.com".

Definition a_record : ResourceRecordSet.t :=
  ResourceRecordSet.make "a.example.com." "A" ["192.0.2.1"].


(** A context with no cached zone, on a provider that lists [zones] and
    answers the record set requests with [pages]. *)
Definition fresh (zones : list HostedZone.t) (pages : list (Reply Page))
  : Context :=
  {| zone := None;
     api := {| hostedZones := Success zones;
               recordSetPages := pages;
               changeResult := Success "C1CHANGE" |} |}.

(** The A record, followed at the same name by a CNAME. *)
Definition ambiguous_page : Page :=
  {| ResourceRecordSets := [a_record]; IsTruncated := true;
     NextRecordName := Some "a.example.com.";
     NextRecordType := Some "CNAME" |}.

(** The A record, followed by a record of another name. *)
Definition unique_page : Page :=
  {| ResourceRecordSets := [a_record]; IsTruncated := true;
     NextRecordName := Some "b.example.com.";
     NextRecordType := Some "A" |}.


(** Five numbered records on three pages of sizes 2, 2 and 1. *)
Definition numbered (i : string) : ResourceRecordSet.t :=
  ResourceRecordSet.make ("r" ++ i ++ ".example.com.") "A" [i].


Definition page1 : Page :=
  {| ResourceRecordSets := [numbered "0"; numbered "1"]; IsTruncated := true;
     NextRecordName := Some "r2.example.com."; NextRecordType := Some "A" |}.


Definition page3 : Page :=
  {| ResourceRecordSets := [numbered "4"]; IsTruncated := false;
     NextRecordName := None; NextRecordType := None |}.


End Sample.

(* ================================================================== *)
(** ** Strings: lengths, slices and suffixes *)

Section StringFacts.

Lemma length_app (s t : string) :
  String.length (s ++ t) = String.length s + String.length t.
Proof.
  induction s as [| c s IH]; simpl; [reflexivity | now rewrite IH].
Qed.

Lemma substring_whole (t : string) : substring 0 (String.length t) t = t.
Proof.
  induction t as [| c t IH]; simpl; [reflexivity | now rewrite IH].
Qed.

Lemma substring_after (p t : string) :
  substring (String.length p) (String.length t) (p ++ t) = t.
Proof.
  induction p as [| c p IH]; simpl; [apply substring_whole | exact IH].
Qed.

(** A string is the slice before a position followed by the slice after
    it. *)
Lemma substring_cut (s : string) :
  forall n, n <= String.length s ->
    s = (substring 0 n s ++ substring n (String.length s - n) s)%string.
Proof.
  induction s as [| c s IH]; intros n Hn.
  - destruct n; reflexivity.
  - destruct n as [| n]; simpl.
    + now rewrite substring_whole.
    + simpl in Hn. f_equal. apply IH. lia.
Qed.

(** [_.endsWith] decides the suffix relation. *)
Lemma endsWith_iff (s target : string) :
  Lodash.endsWith s target = true <-> exists p, s = (p ++ target)%string.
Proof.
  unfold Lodash.endsWith. rewrite andb_true_iff, Nat.leb_le, String.eqb_eq.
  split.
  - intros [Hle Hsub].
    exists (substring 0 (String.length s - String.length target) s).
    pose proof (@substring_cut s (String.length s - String.length target))
      as Hcut.
    replace (String.length s - (String.length s - String.length target))
      with (String.length target) in Hcut by lia.
    rewrite Hsub in Hcut. apply Hcut. lia.
  - intros [p ->]. rewrite length_app. split; [lia |].
    replace (String.length p + String.length target - String.length target)
      with (String.length p) by lia.
    apply substring_after.
Qed.

Lemma endsWith_app (p target : string) :
  Lodash.endsWith (p ++ target) target = true.
Proof. apply endsWith_iff. now exists p. Qed.


Lemma normalize_ends (n : string) :
  Lodash.endsWith (normalize n) "." = true.
Proof.
  unfold normalize.
  destruct (Lodash.endsWith n ".") eqn:E; simpl; [exact E |].
  apply endsWith_app.
Qed.

Lemma normalize_fixed (n : string) :
  Lodash.endsWith n "." = true -> normalize n = n.
Proof. intros H. unfold normalize. now rewrite H. Qed.

End StringFacts.

(* ================================================================== *)
(** ** The wording of the specification against the helpers of the code *)

Lemma spec_ends_with_iff (s suffix : string) :
  Spec.ends_with s suffix = true <-> exists p, s = (p ++ suffix)%string.
Proof.
  induction s as [| c s IH]; cbn [Spec.ends_with].
  - rewrite orb_false_r, String.eqb_eq. split.
    + intros <-. now exists EmptyString.
    + intros [p Hp]. destruct p; [exact Hp | discriminate].
  - rewrite orb_true_iff, String.eqb_eq, IH. split.
    + intros [<- | [p ->]]; [now exists EmptyString | now exists (String c p)].
    + intros [[| c' p] Hp]; [now left |].
      right. exists p. simpl in Hp. now injection Hp.
Qed.

Lemma spec_ends_with_endsWith (s suffix : string) :
  Spec.ends_with s suffix = Lodash.endsWith s suffix.
Proof.
  apply eq_true_iff_eq. now rewrite spec_ends_with_iff, endsWith_iff.
Qed.

Lemma spec_ends_with_separator_iff (name : string) :
  Spec.ends_with_separator name = true <->
  exists stem, name = (stem ++ ".")%string.
Proof.
  induction name as [| c rest IH].
  - split; [discriminate | intros [[| ? ?] H]; discriminate].
  - destruct rest as [| c' rest'].
    + cbn [Spec.ends_with_separator]. rewrite Ascii.eqb_eq. split.
      * intros ->. now exists EmptyString.
      * intros [[| c'' [| ? ?]] H]; simpl in H; try discriminate.
        now injection H.
    + change (Spec.ends_with_separator (String c (String c' rest')))
        with (Spec.ends_with_separator (String c' rest')).
      rewrite IH. split.
      * intros [stem ->]. now exists (String c stem).
      * intros [[| c'' stem] H]; simpl in H; [discriminate |].
        exists stem. now injection H.
Qed.

Lemma spec_ends_with_separator_endsWith (name : string) :
  Spec.ends_with_separator name = Lodash.endsWith name ".".
Proof.
  apply eq_true_iff_eq.
  now rewrite spec_ends_with_separator_iff, endsWith_iff.
Qed.

(** The statement that the source repeats before its comparisons is the
    normalization of the specification. *)
Lemma spec_normalize (name : string) : Spec.normalize name = normalize name.
Proof.
  unfold Spec.normalize, normalize.
  rewrite spec_ends_with_separator_endsWith.
  now destruct (Lodash.endsWith name ".").
Qed.

(* ================================================================== *)
(** ** Name normalizer and matcher *)

Lemma normalize_idempotent (a : string) : normalize (normalize a) = normalize a.
Proof. apply normalize_fixed, normalize_ends. Qed.

Lemma recordNameMatch_spec (a b : string) :
  recordNameMatch a b = Spec.namesMatch a b.
Proof.
  unfold recordNameMatch, Spec.namesMatch. now rewrite !spec_normalize.
Qed.

(** C10: name normalization (appending the trailing [.] when absent) is
    idempotent, [normalize (normalize a) = normalize a] for every name, and
    name matching is invariant under normalization,
    [namesMatch a b = namesMatch (normalize a) (normalize b)] for all
    names. *)
Theorem C10_normalize_idempotent_match_invariant :
  (forall a, normalize (normalize a) = normalize a) /\
  (forall a b,
     recordNameMatch a b = recordNameMatch (normalize a) (normalize b)).
Proof.
  split.
  - exact normalize_idempotent.
  - intros a b. unfold recordNameMatch.
    now rewrite !normalize_idempotent.
Qed.

(** Two types match when one of them is undefined or they are the same
    string. *)
Lemma recordTypeMatch_true_iff (t1 t2 : option string) :
  recordTypeMatch t1 t2 = true <-> t1 = None \/ t2 = None \/ t1 = t2.
Proof.
  destruct t1 as [a |], t2 as [b |]; simpl.
  - rewrite String.eqb_eq. split.
    + intros ->. auto.
    + intros [H | [H | H]]; congruence.
  - split; auto.
  - split; auto.
  - split; auto.
Qed.

(** C8: [nextRecordMatch query next] is true exactly when [next] has both
    its name and its type defined, the two names are equal once each has
    its trailing dot appended when absent (the normalization of the
    specification), and the types match under the wildcard rule: the type
    of the query is undefined or is the type of [next].  A candidate
    whose name or type is undefined never matches. *)
Theorem C8_nextRecordMatch_characterised (query : RecordQuery) :
  (forall next,
     nextRecordMatch query next = true <->
     exists name type,
       cName next = Some name /\ cType next = Some type /\
       Spec.normalize (qName query) = Spec.normalize name /\
       (qType query = None \/ qType query = Some type)) /\
  (forall type, nextRecordMatch query {| cName := None; cType := type |} = false) /\
  (forall name, nextRecordMatch query {| cName := name; cType := None |} = false).
Proof.
  assert (Hmatch : forall name type,
    (if negb (recordNameMatch (qName query) name) then false
     else recordTypeMatch (qType query) (Some type)) = true <->
    Spec.normalize (qName query) = Spec.normalize name /\
    (qType query = None \/ qType query = Some type)).
  { intros name type. rewrite !spec_normalize.
    unfold recordNameMatch.
    destruct (String.eqb_spec (normalize (qName query)) (normalize name))
      as [Heq | Hne]; cbn [negb].
    - rewrite recordTypeMatch_true_iff. split.
      + intros [H | [H | H]]; [auto | discriminate | auto].
      + intros [_ [H | H]]; auto.
    - split; [discriminate | now intros [H _]]. }
  split; [| split].
  - intros next. unfold nextRecordMatch.
    destruct (cName next) as [name |], (cType next) as [type |].
    + rewrite Hmatch. split.
      * intros [Hn Ht]. now exists name, type.
      * now intros (name' & type' & [= <-] & [= <-] & Hn & Ht).
    + split; [discriminate | now intros (? & ? & _ & H & _)].
    + split; [discriminate | now intros (? & ? & H & _)].
    + split; [discriminate | now intros (? & ? & H & _)].
  - reflexivity.
  - intros name. unfold nextRecordMatch; simpl. now destruct name.
Qed.

(** A query for the A record is not made ambiguous by a CNAME that
    follows at the same name; a query for any type is, also when it
    writes the name without the trailing dot. *)
Lemma C8_witness :
  nextRecordMatch {| qName := "a.example.com"; qType := None |}
    {| cName := Some "a.example.com."; cType := Some "CNAME" |} = true /\
  nextRecordMatch {| qName := "a.example.com."; qType := Some "A" |}
    {| cName := Some "a.example.com."; cType := Some "CNAME" |} = false.
Proof.
  split.
  - apply (proj2 (proj1 (C8_nextRecordMatch_characterised
                           {| qName := "a.example.com"; qType := None |})
                    {| cName := Some "a.example.com.";
                       cType := Some "CNAME" |})).
    exists "a.example.com.", "CNAME". repeat split. now left.
  - apply not_true_is_false. intros Htrue.
    apply (proj1 (proj1 (C8_nextRecordMatch_characterised
                           {| qName := "a.example.com."; qType := Some "A" |})
                    {| cName := Some "a.example.com.";
                       cType := Some "CNAME" |})) in Htrue.
    destruct Htrue as (name & type & _ & Htype & _ & [Hq | Hq]);
      cbn [cType qType] in *; [discriminate Hq |].
    rewrite <- Htype in Hq. discriminate Hq.
Defined.

(* ================================================================== *)
(** ** Record updater *)

(** C3: for every zone, old record set and new record set, [updateRecord]
    sends the provider exactly one request, a change batch for the
    identifier of the given zone whose changes are, in this order, the
    DELETE of the old record set and the CREATE of the new one, with the
    optional comment attached. *)
Theorem C3_updateRecord_one_batch
    (z : HostedZone.t) (old _new : ResourceRecordSet.t)
    (options : UpdateOptions) (ctx : Context) :
  exists params,
    calls (updateRecord z old _new options ctx)
      = [changeResourceRecordSets params] /\
    ChangeHostedZoneId params = HostedZone.Id z /\
    Changes (ChangeBatch params)
      = [mkChange "DELETE" old; mkChange "CREATE" _new] /\
    Comment (ChangeBatch params) = comment options.
Proof.
  eexists. split; [reflexivity |]. simpl. auto.
Qed.

(** The reply of the provider decides the continuation: the callback
    with the data, or the error handler with the message. *)
Lemma updateRecord_outcome z old _new options ctx :
  outcome (updateRecord z old _new options ctx) =
  match changeResult (api ctx) with
  | Success data => Callback data
  | Failure message => Errback (or_default (update_errback options)) message
  end.
Proof. unfold updateRecord; simpl. now destruct (changeResult (api ctx)). Qed.

(* ================================================================== *)
(** ** Zone resolver *)

Section Find.

Context {A : Type} (p : A -> bool).

Lemma find_first (before after : list A) (target : A) :
  Forall (fun x => p x = false) before -> p target = true ->
  Lodash.find (before ++ target :: after) p = Some target.
Proof.
  induction 1 as [| x before Hx _ IH]; intros Ht; simpl.
  - now rewrite Ht.
  - rewrite Hx. now apply IH.
Qed.

Lemma find_none (l : list A) :
  Forall (fun x => p x = false) l <-> Lodash.find l p = None.
Proof.
  induction l as [| x l IH]; simpl.
  - split; [reflexivity | constructor].
  - destruct (p x) eqn:Hx; split.
    + intros H. inversion H; congruence.
    + discriminate.
    + intros H. inversion H; subst. now apply IH.
    + intros H. constructor; [exact Hx | now apply IH].
Qed.

Lemma find_some (l : list A) (target : A) :
  Lodash.find l p = Some target ->
  exists before after,
    l = before ++ target :: after /\
    Forall (fun x => p x = false) before /\ p target = true.
Proof.
  induction l as [| x l IH]; simpl; [discriminate |].
  destruct (p x) eqn:Hx.
  - intros [= ->]. exists [], l. auto.
  - intros H. destruct (IH H) as (before & after & -> & Hb & Ht).
    exists (x :: before), after. auto.
Qed.

End Find.

(** The branch of [zoneWhere] that asks the provider, taken when the
    context holds no zone or a zone that fails the predicate. *)
Lemma zoneWhere_lookup predicate errback ctx :
  (forall z, zone ctx = Some z -> predicate z = false) ->
  zoneWhere predicate errback ctx =
  match hostedZones (api ctx) with
  | Success zones =>
      match Lodash.find zones predicate with
      | None =>
          mkRun [listHostedZones] (Errback (or_default errback) ZoneNotFound) ctx
      | Some target =>
          mkRun [listHostedZones] (Callback target) (set_zone ctx target)
      end
  | Failure r => mkRun [listHostedZones] (Errback (or_default errback) r) ctx
  end.
Proof.
  intros Hmiss. unfold zoneWhere.
  destruct (zone ctx) as [z |]; [| reflexivity].
  now rewrite (Hmiss z eq_refl).
Qed.

(** [zoneWhere] never touches the provider part of the context. *)
Lemma zoneWhere_api predicate errback ctx :
  api (context (zoneWhere predicate errback ctx)) = api ctx.
Proof.
  unfold zoneWhere.
  assert (Hl : forall r : Run HostedZone.t,
             r = match hostedZones (api ctx) with
                 | Success zones =>
                     match Lodash.find zones predicate with
                     | None => mkRun [listHostedZones]
                                 (Errback (or_default errback) ZoneNotFound) ctx
                     | Some target => mkRun [listHostedZones] (Callback target)
                                        (set_zone ctx target)
                     end
                 | Failure r => mkRun [listHostedZones]
                                  (Errback (or_default errback) r) ctx
                 end -> api (context r) = api ctx).
  { intros r ->. destruct (hostedZones (api ctx)) as [zones | r];
      [destruct (Lodash.find zones predicate) |]; reflexivity. }
  destruct (zone ctx) as [z |]; [destruct (predicate z) |];
    try reflexivity; now apply Hl.
Qed.

(** C4: when the context already holds a zone that satisfies the
    predicate, [zoneWhere] hands that zone to the callback without any
    provider call and leaves the context as it is.  Otherwise it lists the
    hosted zones; it hands over the first listed zone, in the order of the
    provider, that satisfies the predicate and stores it in the context in
    place of whatever zone was cached; and when no listed zone satisfies
    the predicate it fails with "Zone not found". *)
Theorem C4_zoneWhere_cache_then_first_match
    (predicate : HostedZone.t -> bool) (errback : option ErrorHandler)
    (ctx : Context) :
  (forall z, zone ctx = Some z -> predicate z = true ->
     zoneWhere predicate errback ctx = mkRun [] (Callback z) ctx) /\
  ((forall z, zone ctx = Some z -> predicate z = false) ->
   forall zones, hostedZones (api ctx) = Success zones ->
     (forall before target after,
        zones = before ++ target :: after ->
        Forall (fun x => predicate x = false) before ->
        predicate target = true ->
        zoneWhere predicate errback ctx
          = mkRun [listHostedZones] (Callback target)
                  {| zone := Some target; api := api ctx |}) /\
     (Forall (fun x => predicate x = false) zones ->
        zoneWhere predicate errback ctx
          = mkRun [listHostedZones]
                  (Errback (or_default errback) ZoneNotFound) ctx)).
Proof.
  split.
  - intros z Hz Hp. unfold zoneWhere. now rewrite Hz, Hp.
  - intros Hmiss zones Hzones.
    rewrite (zoneWhere_lookup predicate errback ctx Hmiss), Hzones.
    split.
    + intros before target after -> Hbefore Htarget.
      now rewrite (@find_first _ predicate before after target Hbefore Htarget).
    + intros Hnone. apply find_none in Hnone. now rewrite Hnone.
Qed.

(** A cached zone that owns the host is reused; a stale cached zone is
    replaced by the first listed zone that owns the host; a host that no
    listed zone owns is not found. *)
Lemma C4_witness :
  zoneWhere (hostZone_predicate "www.example.com.") None
      {| zone := Some Sample.example_com; api := api (Sample.fresh [] []) |}
    = mkRun [] (Callback Sample.example_com)
        {| zone := Some Sample.example_com; api := api (Sample.fresh [] []) |} /\
  zoneWhere (hostZone_predicate "foo.sub.example.com.") None
      {| zone := Some (HostedZone.make "Z9OTHER" "example.org.");
         api := api (Sample.fresh
                       [Sample.sub_example_com; Sample.example_com] []) |}
    = mkRun [listHostedZones] (Callback Sample.sub_example_com)
        {| zone := Some Sample.sub_example_com;
           api := api (Sample.fresh
                         [Sample.sub_example_com; Sample.example_com] []) |} /\
  zoneWhere (hostZone_predicate "www.example.net.") (Some errbackArgument)
      (Sample.fresh [Sample.sub_example_com; Sample.example_com] [])
    = mkRun [listHostedZones] (Errback errbackArgument ZoneNotFound)
        (Sample.fresh [Sample.sub_example_com; Sample.example_com] []).
Proof.
  split; [| split].
  - apply (proj1 (C4_zoneWhere_cache_then_first_match
                    (hostZone_predicate "www.example.com.") None
                    {| zone := Some Sample.example_com;
                       api := api (Sample.fresh [] []) |})
             Sample.example_com);
      reflexivity.
  - assert (Hstale :
      forall c,
        Some (HostedZone.make "Z9OTHER" "example.org.") = Some c ->
        hostZone_predicate "foo.sub.example.com." c = false)
      by (intros c [= <-]; reflexivity).
    apply (proj1 (proj2 (C4_zoneWhere_cache_then_first_match
                           (hostZone_predicate "foo.sub.example.com.") None
                           {| zone := Some (HostedZone.make "Z9OTHER"
                                                            "example.org.");
                              api := api (Sample.fresh
                                            [Sample.sub_example_com;
                                             Sample.example_com] []) |})
                        Hstale
                        [Sample.sub_example_com; Sample.example_com] eq_refl)
             [] Sample.sub_example_com [Sample.example_com]).
    + reflexivity.
    + constructor.
    + reflexivity.
  - assert (Hempty :
      forall c,
        @None HostedZone.t = Some c ->
        hostZone_predicate "www.example.net." c = false)
      by (intros c [=]).
    apply (proj2 (proj2 (C4_zoneWhere_cache_then_first_match
                           (hostZone_predicate "www.example.net.")
                           (Some errbackArgument)
                           (Sample.fresh
                              [Sample.sub_example_com; Sample.example_com] []))
                        Hempty
                        [Sample.sub_example_com; Sample.example_com] eq_refl)).
    repeat constructor.
Defined.

(** Whatever zone [zoneWhere] hands to the callback, cached or listed,
    satisfies the predicate. *)
Lemma zoneWhere_sound predicate errback ctx z :
  outcome (zoneWhere predicate errback ctx) = Callback z ->
  predicate z = true.
Proof.
  unfold zoneWhere.
  assert (Hlookup :
    outcome
      match hostedZones (api ctx) with
      | Success zones =>
          match Lodash.find zones predicate with
          | None => mkRun [listHostedZones]
                      (Errback (or_default errback) ZoneNotFound) ctx
          | Some target => mkRun [listHostedZones] (Callback target)
                             (set_zone ctx target)
          end
      | Failure r => mkRun [listHostedZones] (Errback (or_default errback) r) ctx
      end = Callback z -> predicate z = true).
  { destruct (hostedZones (api ctx)) as [zones | r]; [| discriminate].
    destruct (Lodash.find zones predicate) as [target |] eqn:Hfind;
      [| discriminate].
    intros [= <-].
    now destruct (find_some predicate zones Hfind) as (? & ? & _ & _ & Hp). }
  destruct (zone ctx) as [c |]; [| exact Hlookup].
  destruct (predicate c) eqn:Hc; [| exact Hlookup].
  now intros [= <-].
Qed.

(** A failure of the listing itself goes to the error handler with the
    provider's message, and the cached zone stays. *)
Lemma zoneWhere_listing_failed predicate errback ctx r :
  (forall z, zone ctx = Some z -> predicate z = false) ->
  hostedZones (api ctx) = Failure r ->
  zoneWhere predicate errback ctx
    = mkRun [listHostedZones] (Errback (or_default errback) r) ctx.
Proof.
  intros Hmiss Hr. now rewrite (zoneWhere_lookup predicate errback ctx Hmiss), Hr.
Qed.

(* ================================================================== *)
(** ** Record point-resolver *)

(** A type that is undefined or passes the test of line 120 is kept as
    it was supplied, and the resolution goes on. *)
Lemma resourceRecord_accepted (q : RecordQuery) errback ctx :
  qType q = None \/ valid_type_test (qType q) = true ->
  resourceRecord q errback ctx
    = resourceRecord_resolve (qName q) (qType q) (or_default errback) ctx.
Proof.
  intros H. unfold resourceRecord.
  destruct (valid_type_test (qType q)) eqn:Hv; [reflexivity |].
  destruct H as [H | H]; [now rewrite H | discriminate].
Qed.

(** Once the zone is found and the provider has answered, the outcome is
    that of the page callback. *)
Lemma resourceRecord_resolve_found rr_name rr_type errback ctx z reply rest :
  outcome (hostZone rr_name None ctx) = Callback z ->
  recordSetPages (api ctx) = reply :: rest ->
  resourceRecord_resolve rr_name rr_type errback ctx
    = mkRun (calls (hostZone rr_name None ctx)
               ++ [listResourceRecordSets
                     (resourceRecord_request z rr_name rr_type)])
            (resourceRecord_reply rr_name rr_type errback reply)
            (set_pages (context (hostZone rr_name None ctx)) rest).
Proof.
  intros Hz Hpages. unfold resourceRecord_resolve. rewrite Hz.
  unfold hostZone at 1. rewrite zoneWhere_api, Hpages. reflexivity.
Qed.

Lemma resourceRecord_found (q : RecordQuery) errback ctx z reply rest :
  qType q = None \/ valid_type_test (qType q) = true ->
  outcome (hostZone (qName q) None ctx) = Callback z ->
  recordSetPages (api ctx) = reply :: rest ->
  outcome (resourceRecord q errback ctx)
    = resourceRecord_reply (qName q) (qType q) (or_default errback) reply.
Proof.
  intros Hty Hz Hpages.
  rewrite (@resourceRecord_accepted q errback ctx Hty).
  now rewrite (@resourceRecord_resolve_found (qName q) (qType q)
                 (or_default errback) ctx z reply rest Hz Hpages).
Qed.

(** C1: for a query with an undefined type, when the page returns a first
    record [R] whose name matches the name of the query (any type of [R]
    satisfies the wildcard) and the next cursor of the page has its name
    and its type defined with a name that matches too, [resourceRecord]
    fails with the ambiguity error and does not hand [R] to the
    callback. *)
Theorem C1_wildcard_with_matching_follower_is_ambiguous
    (name : string) (errback : option ErrorHandler) (ctx : Context)
    (z : HostedZone.t) (data : Page) (rest : list (Reply Page))
    (R : ResourceRecordSet.t) (nextName nextType : string) :
  outcome (hostZone name None ctx) = Callback z ->
  recordSetPages (api ctx) = Success data :: rest ->
  nth_error (ResourceRecordSets data) 0 = Some R ->
  recordNameMatch name (ResourceRecordSet.Name R) = true ->
  NextRecordName data = Some nextName ->
  NextRecordType data = Some nextType ->
  recordNameMatch name nextName = true ->
  outcome (resourceRecord {| qName := name; qType := None |} errback ctx)
    = Errback (or_default errback) AmbiguousSelection /\
  outcome (resourceRecord {| qName := name; qType := None |} errback ctx)
    <> Callback R.
Proof.
  intros Hz Hpages HR Hname HnextN HnextT Hnext.
  assert (Hout :
    outcome (resourceRecord {| qName := name; qType := None |} errback ctx)
      = Errback (or_default errback) AmbiguousSelection).
  { rewrite (@resourceRecord_found {| qName := name; qType := None |}
               errback ctx z (Success data) rest (or_introl eq_refl) Hz Hpages).
    unfold resourceRecord_reply. cbn [qName qType].
    rewrite HR, Hname. cbn [recordTypeMatch].
    unfold nextRecordMatch. cbn [cName cType qName qType].
    now rewrite HnextN, HnextT, Hnext. }
  split; [exact Hout | rewrite Hout; discriminate].
Qed.

(** The example of the specification: the A record of [a.example.com.]
    followed by a CNAME of the same name. *)
Lemma C1_witness :
  outcome (resourceRecord {| qName := "a.example.com."; qType := None |} None
             (Sample.fresh [Sample.example_com]
                           [Success Sample.ambiguous_page]))
    = Errback defaultErrorHandler AmbiguousSelection /\
  outcome (resourceRecord {| qName := "a.example.com."; qType := None |} None
             (Sample.fresh [Sample.example_com]
                           [Success Sample.ambiguous_page]))
    <> Callback Sample.a_record.
Proof.
  apply (@C1_wildcard_with_matching_follower_is_ambiguous
           "a.example.com." None
           (Sample.fresh [Sample.example_com] [Success Sample.ambiguous_page])
           Sample.example_com Sample.ambiguous_page [] Sample.a_record
           "a.example.com." "CNAME");
    reflexivity.
Defined.

(** C2: the checks of [resourceRecord] come in this order.  A type that
    is defined but not one of the valid types fails with the bad type
    error before any zone lookup or provider call, and is never taken for
    the wildcard.  Then, with the zone found and the page received: an
    empty page or a first record of another name fails with the record
    not found error whatever the types and the cursor; a first record of
    the right name and of another type fails with the type error whatever
    the cursor; and the ambiguity error is only reported for a first
    record that passed the name check and the type check. *)
Theorem C2_order_of_checks
    (q : RecordQuery) (errback : option ErrorHandler) (ctx : Context) :
  (forall t, qType q = Some t -> valid_type_test (Some t) = false ->
     resourceRecord q errback ctx
       = mkRun [] (Errback (or_default errback) (InvalidType (Some t))) ctx) /\
  (forall z data rest,
     qType q = None \/ valid_type_test (qType q) = true ->
     outcome (hostZone (qName q) None ctx) = Callback z ->
     recordSetPages (api ctx) = Success data :: rest ->
     (nth_error (ResourceRecordSets data) 0 = None ->
        outcome (resourceRecord q errback ctx)
          = Errback (or_default errback) RecordNotFound) /\
     (forall R,
        nth_error (ResourceRecordSets data) 0 = Some R ->
        recordNameMatch (qName q) (ResourceRecordSet.Name R) = false ->
        outcome (resourceRecord q errback ctx)
          = Errback (or_default errback) RecordNotFound) /\
     (forall R,
        nth_error (ResourceRecordSets data) 0 = Some R ->
        recordNameMatch (qName q) (ResourceRecordSet.Name R) = true ->
        recordTypeMatch (qType q) (Some (ResourceRecordSet.Type_ R)) = false ->
        outcome (resourceRecord q errback ctx)
          = Errback (or_default errback) TypeMismatch) /\
     (forall handler,
        outcome (resourceRecord q errback ctx)
          = Errback handler AmbiguousSelection ->
        exists R,
          nth_error (ResourceRecordSets data) 0 = Some R /\
          recordNameMatch (qName q) (ResourceRecordSet.Name R) = true /\
          recordTypeMatch (qType q) (Some (ResourceRecordSet.Type_ R)) = true /\
          nextRecordMatch q {| cName := NextRecordName data;
                               cType := NextRecordType data |} = true)).
Proof.
  split.
  - intros t Ht Hbad. unfold resourceRecord. now rewrite Ht, Hbad.
  - intros z data rest Hty Hz Hpages.
    rewrite (@resourceRecord_found q errback ctx z (Success data) rest
               Hty Hz Hpages).
    unfold resourceRecord_reply.
    destruct (nth_error (ResourceRecordSets data) 0) as [R |].
    + repeat split.
      * discriminate.
      * intros R' [= <-] Hname. now rewrite Hname.
      * intros R' [= <-] Hname Htype. now rewrite Hname, Htype.
      * intros handler.
        destruct (recordNameMatch (qName q) (ResourceRecordSet.Name R))
          eqn:Hname; [| discriminate].
        destruct (recordTypeMatch (qType q)
                    (Some (ResourceRecordSet.Type_ R))) eqn:Htype;
          [| discriminate].
        replace {| qName := qName q; qType := qType q |} with q
          by now destruct q.
        destruct (nextRecordMatch q _) eqn:Hnext; [| discriminate].
        intros _. exists R. auto.
    + repeat split; discriminate.
Qed.

Lemma C2_witness :
  resourceRecord {| qName := "a.example.com."; qType := Some "BOGUS" |} None
      (Sample.fresh [Sample.example_com] [Success Sample.unique_page])
    = mkRun [] (Errback defaultErrorHandler (InvalidType (Some "BOGUS")))
        (Sample.fresh [Sample.example_com] [Success Sample.unique_page]) /\
  outcome (resourceRecord {| qName := "a.example.com."; qType := Some "CNAME" |}
             None
             (Sample.fresh [Sample.example_com] [Success Sample.unique_page]))
    = Errback defaultErrorHandler TypeMismatch /\
  outcome (resourceRecord {| qName := "z.example.com."; qType := Some "A" |}
             None
             (Sample.fresh [Sample.example_com] [Success Sample.ambiguous_page]))
    = Errback defaultErrorHandler RecordNotFound.
Proof.
  split; [| split].
  - apply (proj1 (C2_order_of_checks
                    {| qName := "a.example.com."; qType := Some "BOGUS" |} None
                    (Sample.fresh [Sample.example_com]
                                  [Success Sample.unique_page])) "BOGUS");
      reflexivity.
  - apply (proj1 (proj2 (proj2
             (proj2 (C2_order_of_checks
                       {| qName := "a.example.com."; qType := Some "CNAME" |}
                       None
                       (Sample.fresh [Sample.example_com]
                                     [Success Sample.unique_page]))
                    Sample.example_com Sample.unique_page []
                    (or_intror eq_refl) eq_refl eq_refl)))
             Sample.a_record);
      reflexivity.
  - apply (proj1 (proj2
             (proj2 (C2_order_of_checks
                       {| qName := "z.example.com."; qType := Some "A" |}
                       None
                       (Sample.fresh [Sample.example_com]
                                     [Success Sample.ambiguous_page]))
                    Sample.example_com Sample.ambiguous_page []
                    (or_intror eq_refl) eq_refl eq_refl))
             Sample.a_record);
      reflexivity.
Defined.

(** *** The ways a resolution can go *)

(** The four ways [zoneWhere] can go. *)
Lemma zoneWhere_cases predicate errback ctx :
  (exists z, zone ctx = Some z /\ predicate z = true /\
     zoneWhere predicate errback ctx = mkRun [] (Callback z) ctx) \/
  (exists zones target,
     hostedZones (api ctx) = Success zones /\
     Lodash.find zones predicate = Some target /\
     zoneWhere predicate errback ctx
       = mkRun [listHostedZones] (Callback target) (set_zone ctx target)) \/
  (exists zones,
     hostedZones (api ctx) = Success zones /\
     Lodash.find zones predicate = None /\
     zoneWhere predicate errback ctx
       = mkRun [listHostedZones] (Errback (or_default errback) ZoneNotFound)
           ctx) \/
  (exists r,
     hostedZones (api ctx) = Failure r /\
     zoneWhere predicate errback ctx
       = mkRun [listHostedZones] (Errback (or_default errback) r) ctx).
Proof.
  destruct (zone ctx) as [c |] eqn:Hc.
  - destruct (predicate c) eqn:Hp.
    + left. exists c. repeat split; trivial.
      unfold zoneWhere. now rewrite Hc, Hp.
    + right.
      rewrite (@zoneWhere_lookup predicate errback ctx)
        by (intros z Hz; rewrite Hc in Hz; now injection Hz as <-).
      destruct (hostedZones (api ctx)) as [zones | r]; [| right; right; eauto].
      destruct (Lodash.find zones predicate) as [target |] eqn:Hfind;
        [left | right; left]; eauto.
  - right.
    rewrite (@zoneWhere_lookup predicate errback ctx)
      by (intros z Hz; rewrite Hc in Hz; discriminate).
    destruct (hostedZones (api ctx)) as [zones | r]; [| right; right; eauto].
    destruct (Lodash.find zones predicate) as [target |] eqn:Hfind;
      [left | right; left]; eauto.
Qed.

(** The zone lookup of [resourceRecord] has no [errback] of its own: it
    fails to the default handler, after one listing, and leaves the
    context as it was. *)
Lemma hostZone_failure host ctx handler message :
  outcome (hostZone host None ctx) = Errback handler message ->
  hostZone host None ctx
    = mkRun [listHostedZones] (Errback defaultErrorHandler message) ctx.
Proof.
  unfold hostZone. intros Hout.
  destruct (zoneWhere_cases (hostZone_predicate (normalize host)) None ctx)
    as [(c & _ & _ & Hrun) | [(zones & t & _ & _ & Hrun)
       | [(zones & _ & _ & Hrun) | (r & _ & Hrun)]]];
    rewrite Hrun in Hout |- *; cbn [outcome] in Hout; try discriminate;
    now injection Hout as _ <-.
Qed.

Lemma hostZone_success host errback ctx z :
  outcome (hostZone host errback ctx) = Callback z ->
  zone (context (hostZone host errback ctx)) = Some z /\
  hostZone_predicate (normalize host) z = true /\
  (calls (hostZone host errback ctx) = [] \/
   calls (hostZone host errback ctx) = [listHostedZones]).
Proof.
  unfold hostZone. intros Hout.
  split; [| split; [exact (zoneWhere_sound _ _ _ Hout) |]];
    destruct (zoneWhere_cases (hostZone_predicate (normalize host)) errback ctx)
      as [(c & Hc & _ & Hrun) | [(zones & t & _ & _ & Hrun)
         | [(zones & _ & _ & Hrun) | (r & _ & Hrun)]]];
    rewrite Hrun in Hout |- *; cbn [outcome context calls] in *;
    try discriminate; auto; now injection Hout as ->.
Qed.

(** The three ways the resolution can go once the type is settled. *)
Lemma resourceRecord_resolve_cases rr_name rr_type errback ctx :
  (exists z reply rest,
     outcome (hostZone rr_name None ctx) = Callback z /\
     recordSetPages (api ctx) = reply :: rest /\
     resourceRecord_resolve rr_name rr_type errback ctx
       = mkRun (calls (hostZone rr_name None ctx)
                  ++ [listResourceRecordSets
                        (resourceRecord_request z rr_name rr_type)])
               (resourceRecord_reply rr_name rr_type errback reply)
               (set_pages (context (hostZone rr_name None ctx)) rest)) \/
  (exists z,
     outcome (hostZone rr_name None ctx) = Callback z /\
     recordSetPages (api ctx) = [] /\
     resourceRecord_resolve rr_name rr_type errback ctx
       = mkRun (calls (hostZone rr_name None ctx)
                  ++ [listResourceRecordSets
                        (resourceRecord_request z rr_name rr_type)])
               NoReply
               (context (hostZone rr_name None ctx))) \/
  (exists message,
     outcome (hostZone rr_name None ctx)
       = Errback defaultErrorHandler message /\
     resourceRecord_resolve rr_name rr_type errback ctx
       = mkRun [listHostedZones] (Errback defaultErrorHandler message) ctx).
Proof.
  destruct (outcome (hostZone rr_name None ctx)) as [z | handler message |]
    eqn:Hout.
  - destruct (recordSetPages (api ctx)) as [| reply rest] eqn:Hpages.
    + right; left. exists z. repeat split; trivial.
      unfold resourceRecord_resolve. rewrite Hout.
      unfold hostZone at 1. now rewrite zoneWhere_api, Hpages.
    + left. exists z, reply, rest. repeat split; trivial.
      now apply resourceRecord_resolve_found.
  - right; right. exists message.
    pose proof (hostZone_failure _ _ Hout) as Hrun.
    assert (Hh : handler = defaultErrorHandler)
      by (rewrite Hrun in Hout; now injection Hout).
    subst handler. split; [reflexivity |].
    unfold resourceRecord_resolve. now rewrite Hrun.
  - exfalso. unfold hostZone in Hout.
    destruct (zoneWhere_cases (hostZone_predicate (normalize rr_name)) None ctx)
      as [(c & _ & _ & Hrun) | [(zones & t & _ & _ & Hrun)
         | [(zones & _ & _ & Hrun) | (r & _ & Hrun)]]];
      rewrite Hrun in Hout; discriminate.
Qed.

(** The two ways [resourceRecord] can start. *)
Lemma resourceRecord_cases (q : RecordQuery) errback ctx :
  (exists t, qType q = Some t /\ valid_type_test (Some t) = false /\
     resourceRecord q errback ctx
       = mkRun [] (Errback (or_default errback) (InvalidType (Some t))) ctx) \/
  ((qType q = None \/ valid_type_test (qType q) = true) /\
   resourceRecord q errback ctx
     = resourceRecord_resolve (qName q) (qType q) (or_default errback) ctx).
Proof.
  destruct (valid_type_test (qType q)) eqn:Hv.
  - right. split; [now right |]. now apply resourceRecord_accepted; right.
  - destruct (qType q) as [t |] eqn:Ht.
    + left. exists t. repeat split; trivial.
      unfold resourceRecord. now rewrite Ht, Hv.
    + right. split; [now left |].
      rewrite <- Ht. apply resourceRecord_accepted. now left.
Qed.

(** *** Ownership of a host by a zone *)

Lemma hostZone_predicate_iff (host : string) (z : HostedZone.t) :
  hostZone_predicate host z = true <->
  exists label, host = (label ++ "." ++ HostedZone.Name z)%string.
Proof. apply endsWith_iff. Qed.










(** *** The zone predicates against their specification *)

Lemma find_ext {A : Type} (p q : A -> bool) (l : list A) :
  (forall x, In x l -> p x = q x) -> Lodash.find l p = Lodash.find l q.
Proof.
  induction l as [| x l IH]; intros H; simpl; [reflexivity |].
  rewrite (H x (or_introl eq_refl)), IH; [reflexivity |].
  intros y Hy. apply H. now right.
Qed.

(** [zoneWhere] only asks its predicate about the cached zone and the
    listed zones. *)
Lemma zoneWhere_ext (p q : HostedZone.t -> bool) errback ctx :
  (forall z, zone ctx = Some z -> p z = q z) ->
  (forall zones z, hostedZones (api ctx) = Success zones -> In z zones ->
                   p z = q z) ->
  zoneWhere p errback ctx = zoneWhere q errback ctx.
Proof.
  intros Hcache Hlist. unfold zoneWhere.
  assert (Hfind : forall zones, hostedZones (api ctx) = Success zones ->
                                Lodash.find zones p = Lodash.find zones q).
  { intros zones Hz. apply find_ext. intros z. now apply Hlist. }
  destruct (hostedZones (api ctx)) as [zones | r].
  - rewrite (Hfind zones eq_refl).
    destruct (zone ctx) as [c |]; [| reflexivity].
    now rewrite (Hcache c eq_refl).
  - destruct (zone ctx) as [c |]; [| reflexivity].
    now rewrite (Hcache c eq_refl).
Qed.

Lemma dotted_ends (name : string) :
  (exists stem, name = (stem ++ ".")%string) ->
  Lodash.endsWith name "." = true.
Proof. apply endsWith_iff. Qed.

Lemma zoneNamed_predicate_dotted (z : HostedZone.t) (zoneName : string) :
  (exists stem, HostedZone.Name z = (stem ++ ".")%string) ->
  zoneNamed_predicate (normalize zoneName) z
    = Spec.zoneNamed_predicate zoneName z.
Proof.
  intros Hdot. apply dotted_ends in Hdot.
  unfold zoneNamed_predicate, Spec.zoneNamed_predicate, Spec.namesMatch.
  rewrite !spec_normalize, (normalize_fixed _ Hdot). apply String.eqb_sym.
Qed.

Lemma hostZone_predicate_dotted (z : HostedZone.t) (host : string) :
  (exists stem, HostedZone.Name z = (stem ++ ".")%string) ->
  hostZone_predicate (normalize host) z = Spec.hostZone_predicate host z.
Proof.
  intros Hdot. apply dotted_ends in Hdot.
  unfold hostZone_predicate, Spec.hostZone_predicate.
  now rewrite spec_ends_with_endsWith, !spec_normalize,
    (normalize_fixed _ Hdot).
Qed.

(** C6: the names of the hosted zones, cached or listed by the provider,
    end with the trailing separator [.] when they are compared.  On such
    zones [zoneNamed] is the zone resolver on the predicate that compares
    the normalized query name with the normalized name of the zone, and
    [hostZone] is the zone resolver on the predicate that tests whether
    the normalized host ends with [.] followed by the normalized name of
    the zone. *)
Theorem C6_zone_resolvers_compare_normalized_names
    (name : string) (errback : option ErrorHandler) (ctx : Context) :
  (forall z, zone ctx = Some z ->
             exists stem, HostedZone.Name z = (stem ++ ".")%string) ->
  (forall zones z, hostedZones (api ctx) = Success zones -> In z zones ->
                   exists stem, HostedZone.Name z = (stem ++ ".")%string) ->
  zoneNamed name errback ctx
    = zoneWhere (Spec.zoneNamed_predicate name) errback ctx /\
  hostZone name errback ctx
    = zoneWhere (Spec.hostZone_predicate name) errback ctx.
Proof.
  intros Hcache Hlist. split; apply zoneWhere_ext.
  - intros z Hz. apply zoneNamed_predicate_dotted. now apply Hcache.
  - intros zones z Hzones Hz. apply zoneNamed_predicate_dotted.
    now apply (Hlist zones).
  - intros z Hz. apply hostZone_predicate_dotted. now apply Hcache.
  - intros zones z Hzones Hz. apply hostZone_predicate_dotted.
    now apply (Hlist zones).
Qed.

(** The zone [example.com.] is found by its name written without the
    dot, and found as the owner of a host written without the dot. *)
Lemma C6_witness :
  zoneNamed "example.com" None
      (Sample.fresh [Sample.sub_example_com; Sample.example_com] [])
    = mkRun [listHostedZones] (Callback Sample.example_com)
        {| zone := Some Sample.example_com;
           api := api (Sample.fresh
                         [Sample.sub_example_com; Sample.example_com] []) |} /\
  hostZone "www.example.com" None
      (Sample.fresh [Sample.sub_example_com; Sample.example_com] [])
    = mkRun [listHostedZones] (Callback Sample.example_com)
        {| zone := Some Sample.example_com;
           api := api (Sample.fresh
                         [Sample.sub_example_com; Sample.example_com] []) |}.
Proof.
  assert (Hcache :
    forall z,
      zone (Sample.fresh [Sample.sub_example_com; Sample.example_com] [])
        = Some z ->
      exists stem, HostedZone.Name z = (stem ++ ".")%string)
    by (intros z [=]).
  assert (Hlist :
    forall zones z,
      hostedZones
        (api (Sample.fresh [Sample.sub_example_com; Sample.example_com] []))
        = Success zones ->
      In z zones ->
      exists stem, HostedZone.Name z = (stem ++ ".")%string).
  { intros zones z [= <-] [<- | [<- | []]];
      [now exists "sub.example.com" | now exists "example.com"]. }
  split.
  - rewrite (proj1 (@C6_zone_resolvers_compare_normalized_names
                      "example.com" None _ Hcache Hlist)).
    reflexivity.
  - rewrite (proj2 (@C6_zone_resolvers_compare_normalized_names
                      "www.example.com" None _ Hcache Hlist)).
    reflexivity.
Defined.

(** *** Letter case of the supplied type *)

(** The test of line 120 accepts exactly the strings whose upper case is
    one of the ten types. *)
Lemma valid_type_test_iff (s : string) :
  valid_type_test (Some s) = true <-> In (canonicalize_string s) valid_types.
Proof.
  unfold valid_type_test. rewrite existsb_exists. cbn [js_to_string]. split.
  - intros (alt & Hin & Heq). apply String.eqb_eq in Heq. rewrite <- Heq.
    unfold valid_types in Hin |- *. simpl in Hin.
    repeat (destruct Hin as [<- | Hin]; [vm_compute; tauto |]).
    contradiction.
  - intros Hin. exists (canonicalize_string s). split; [exact Hin |].
    apply String.eqb_eq.
    unfold valid_types in Hin. simpl in Hin.
    repeat (destruct Hin as [<- | Hin]; [reflexivity |]).
    contradiction.
Qed.

(** An accepted type is used as it was supplied, in the page request and
    in the comparison with the type of the record: nothing changes its
    letter case. *)
Lemma accepted_type_used_as_supplied name t errback ctx z reply rest :
  In (canonicalize_string t) valid_types ->
  outcome (hostZone name None ctx) = Callback z ->
  recordSetPages (api ctx) = reply :: rest ->
  resourceRecord {| qName := name; qType := Some t |} errback ctx
    = mkRun (calls (hostZone name None ctx)
               ++ [listResourceRecordSets
                     {| HostedZoneId := Some (HostedZone.Id z);
                        MaxItems := Some "1";
                        StartRecordName := Some name;
                        StartRecordType := Some t |}])
            (resourceRecord_reply name (Some t) (or_default errback) reply)
            (set_pages (context (hostZone name None ctx)) rest).
Proof.
  intros Hin Hz Hpages. apply valid_type_test_iff in Hin.
  rewrite (@resourceRecord_accepted {| qName := name; qType := Some t |}
             errback ctx (or_intror Hin)).
  apply (@resourceRecord_resolve_found name (Some t) (or_default errback)
           ctx z reply rest Hz Hpages).
Qed.

(** C7: a supplied type that is one of the ten types up to letter case is
    accepted, and should then behave as its upper case form does.  The
    source accepts the lower case type ["a"] but uses it as supplied: it
    sends ["a"] as [StartRecordType] and compares ["a"] with the type
    ["A"] of the record by strict equality, so that the query that
    succeeds with type ["A"] fails with the type error with type ["a"]. *)
Theorem C7_lowercase_type_is_not_normalized :
  valid_type_test (Some "a") = true /\
  resourceRecord {| qName := "a.example.com."; qType := Some "a" |} None
      (Sample.fresh [Sample.example_com] [Success Sample.unique_page])
    = mkRun [listHostedZones;
             listResourceRecordSets
               {| HostedZoneId := Some "Z1EXAMPLE"; MaxItems := Some "1";
                  StartRecordName := Some "a.example.com.";
                  StartRecordType := Some "a" |}]
            (Errback defaultErrorHandler TypeMismatch)
            {| zone := Some Sample.example_com;
               api := api (Sample.fresh [Sample.example_com] []) |} /\
  resourceRecord {| qName := "a.example.com."; qType := Some "A" |} None
      (Sample.fresh [Sample.example_com] [Success Sample.unique_page])
    = mkRun [listHostedZones;
             listResourceRecordSets
               {| HostedZoneId := Some "Z1EXAMPLE"; MaxItems := Some "1";
                  StartRecordName := Some "a.example.com.";
                  StartRecordType := Some "A" |}]
            (Callback Sample.a_record)
            {| zone := Some Sample.example_com;
               api := api (Sample.fresh [Sample.example_com] []) |}.
Proof. repeat split. Qed.

(* ================================================================== *)
(** ** Record set paginator *)

Section Projections.

Lemma requests_of_app (a b : list Event) :
  requests_of (a ++ b) = requests_of a ++ requests_of b.
Proof. apply flat_map_app. Qed.

Lemma delivered_of_app (a b : list Event) :
  delivered_of (a ++ b) = delivered_of a ++ delivered_of b.
Proof. apply flat_map_app. Qed.

Lemma finished_of_app (a b : list Event) :
  finished_of (a ++ b) = finished_of a ++ finished_of b.
Proof. apply flat_map_app. Qed.

Lemma failures_of_app (a b : list Event) :
  failures_of (a ++ b) = failures_of a ++ failures_of b.
Proof. apply flat_map_app. Qed.

Lemma requests_of_deliveries (l : list ResourceRecordSet.t) :
  requests_of (map Delivered l) = [].
Proof. induction l; simpl; auto. Qed.

Lemma delivered_of_deliveries (l : list ResourceRecordSet.t) :
  delivered_of (map Delivered l) = l.
Proof. induction l; simpl; [reflexivity | now f_equal]. Qed.

Lemma finished_of_deliveries (l : list ResourceRecordSet.t) :
  finished_of (map Delivered l) = [].
Proof. induction l; simpl; auto. Qed.

Lemma failures_of_deliveries (l : list ResourceRecordSet.t) :
  failures_of (map Delivered l) = [].
Proof. induction l; simpl; auto. Qed.

End Projections.

Lemma filter_flat_map {A B : Type} (p : B -> bool) (f : A -> list B)
    (l : list A) :
  filter p (flat_map f l) = flat_map (fun x => filter p (f x)) l.
Proof.
  induction l as [| x l IH]; simpl; [reflexivity |].
  now rewrite filter_app, IH.
Qed.

(** *** One reply at a time *)

Lemma zoneRecords_events_truncated z options data rest :
  IsTruncated data = true ->
  zoneRecords_events z options (Success data :: rest)
    = (Requested (zoneRecords_request z options)
         :: map Delivered (filter (selected options) (ResourceRecordSets data))
         ++ fst (zoneRecords_events z (next_options options data) rest),
       snd (zoneRecords_events z (next_options options data) rest)).
Proof.
  intros Ht. simpl. rewrite Ht.
  now destruct (zoneRecords_events z (next_options options data) rest).
Qed.

Lemma zoneRecords_events_complete z options data rest :
  IsTruncated data = false ->
  zoneRecords_events z options (Success data :: rest)
    = (Requested (zoneRecords_request z options)
         :: map Delivered (filter (selected options) (ResourceRecordSets data))
         ++ [Finished],
       rest).
Proof. intros Ht. simpl. now rewrite Ht. Qed.


(** The request of the recursive call carries the zone and the cursor of
    the page, and nothing of the first request. *)
Lemma zoneRecords_request_next z options data :
  zoneRecords_request z (next_options options data) = cursor_request z data.
Proof.
  reflexivity.
Qed.

(** Rewriting rules that read the four projections off a trace. *)
Lemma requests_of_request p l :
  requests_of (Requested p :: l) = p :: requests_of l.
Proof. reflexivity. Qed.

Lemma delivered_of_request p l :
  delivered_of (Requested p :: l) = delivered_of l.
Proof. reflexivity. Qed.

Lemma finished_of_request p l :
  finished_of (Requested p :: l) = finished_of l.
Proof. reflexivity. Qed.

Lemma failures_of_request p l :
  failures_of (Requested p :: l) = failures_of l.
Proof. reflexivity. Qed.

Create Rewrite HintDb trace.
#[local] Hint Rewrite
  requests_of_request delivered_of_request finished_of_request
  failures_of_request
  requests_of_app delivered_of_app finished_of_app failures_of_app
  requests_of_deliveries delivered_of_deliveries finished_of_deliveries
  failures_of_deliveries
  zoneRecords_request_next : trace.

Ltac read_trace :=
  cbn [fst snd map]; autorewrite with trace; cbn [app]; try reflexivity.

Section Pagination.

Variable z : HostedZone.t.
Variable rest : list (Reply Page).



End Pagination.

Lemma zoneRecords_unfold z options ctx :
  zoneRecords z options ctx
    = (fst (zoneRecords_events z options (recordSetPages (api ctx))),
       set_pages ctx
         (snd (zoneRecords_events z options (recordSetPages (api ctx))))).
Proof.
  unfold zoneRecords.
  now destruct (zoneRecords_events z options (recordSetPages (api ctx))).
Qed.



(* ================================================================== *)
(** * Further properties of the source *)

(** ** Names and types *)

Lemma recordNameMatch_true_iff (a b : string) :
  recordNameMatch a b = true <-> normalize a = normalize b.
Proof. unfold recordNameMatch. apply String.eqb_eq. Qed.

Lemma app_assoc_string (s t u : string) :
  ((s ++ t) ++ u = s ++ (t ++ u))%string.
Proof.
  induction s as [| c s IH]; simpl; [reflexivity | now rewrite IH].
Qed.

(** A non empty string at the end of a string that ends with a dot ends
    with a dot itself. *)
Lemma suffix_of_dotted (a b c : string) :
  (a ++ b = c ++ ".")%string -> b <> EmptyString ->
  exists r, b = (r ++ ".")%string.
Proof.
  revert c. induction a as [| x a IH]; intros c Heq Hb.
  - now exists c.
  - destruct c as [| y c]; simpl in Heq.
    + injection Heq as _ Heq. destruct a; simpl in Heq; [| discriminate].
      contradiction.
    + injection Heq as _ Heq. now apply (IH c).
Qed.

(** X1: name matching is an equivalence on names: every name matches
    itself, the order of the two names does not matter, and two names
    that match a third one match each other. *)
Theorem X1_recordNameMatch_equivalence :
  (forall a, recordNameMatch a a = true) /\
  (forall a b, recordNameMatch a b = recordNameMatch b a) /\
  (forall a b c,
     recordNameMatch a b = true -> recordNameMatch b c = true ->
     recordNameMatch a c = true).
Proof.
  split; [| split].
  - intros a. now apply recordNameMatch_true_iff.
  - intros a b. unfold recordNameMatch. apply String.eqb_sym.
  - intros a b c Hab Hbc. apply recordNameMatch_true_iff.
    apply recordNameMatch_true_iff in Hab, Hbc. congruence.
Qed.

Lemma X1_witness :
  recordNameMatch "example.com" "www.example.com." = false /\
  recordNameMatch "example.com" "example.com" = true.
Proof.
  split.
  - rewrite (proj1 (proj2 X1_recordNameMatch_equivalence)). reflexivity.
  - apply (proj2 (proj2 X1_recordNameMatch_equivalence)
             "example.com" "example.com." "example.com");
      reflexivity.
Defined.

(** X2: exactly one trailing dot is forgiven.  A name that does not end
    with a dot matches the same name with a dot appended; a name that
    already ends with a dot does not match itself with one more dot. *)
Theorem X2_recordNameMatch_one_trailing_dot (n : string) :
  recordNameMatch n (n ++ ".")
    = negb (Lodash.endsWith n ".").
Proof.
  destruct (Lodash.endsWith n ".") eqn:Hdot; cbn [negb].
  - apply not_true_is_false. intros H.
    apply recordNameMatch_true_iff in H.
    rewrite (normalize_fixed _ Hdot) in H.
    rewrite (normalize_fixed _ (endsWith_app n ".")) in H.
    apply (f_equal String.length) in H. rewrite length_app in H.
    simpl in H. lia.
  - apply recordNameMatch_true_iff.
    rewrite (normalize_fixed _ (endsWith_app n ".")).
    unfold normalize. now rewrite Hdot.
Qed.

(** *** Letter case in the type test *)

Lemma canonicalize_capital (m : nat) :
  65 <= m -> m <= 90 ->
  canonicalize (ascii_of_nat m) = ascii_of_nat m /\
  canonicalize (ascii_of_nat (m + 32)) = ascii_of_nat m.
Proof.
  intros Hlo Hhi. unfold canonicalize.
  rewrite !nat_ascii_embedding by lia.
  replace (97 <=? m)%nat with false by (symmetry; apply Nat.leb_gt; lia).
  replace (97 <=? m + 32)%nat with true by (symmetry; apply Nat.leb_le; lia).
  replace (m + 32 <=? 122)%nat with true by (symmetry; apply Nat.leb_le; lia).
  cbn [andb]. split; [reflexivity |]. f_equal. lia.
Qed.

Lemma same_letter_canonicalize (a b : ascii) :
  Spec.same_letter a b = true -> canonicalize a = canonicalize b.
Proof.
  unfold Spec.same_letter.
  rewrite !orb_true_iff, !andb_true_iff, !Nat.leb_le, !Nat.eqb_eq,
    Ascii.eqb_eq.
  intros [-> | [[[Hlo Hhi] Heq] | [[Hlo Hhi] Heq]]]; [reflexivity | |].
  - destruct (canonicalize_capital Hlo Hhi) as [Hcap Hsmall].
    rewrite <- Heq, !ascii_nat_embedding in Hsmall.
    rewrite ascii_nat_embedding in Hcap. congruence.
  - destruct (canonicalize_capital Hlo Hhi) as [Hcap Hsmall].
    rewrite <- Heq, !ascii_nat_embedding in Hsmall.
    rewrite ascii_nat_embedding in Hcap. congruence.
Qed.

Lemma same_letter_canonical (a : ascii) :
  Spec.same_letter a (canonicalize a) = true.
Proof.
  destruct a as [[] [] [] [] [] [] [] []]; reflexivity.
Qed.

Lemma same_up_to_case_canonicalize (s t : string) :
  Spec.same_up_to_case s t = true ->
  canonicalize_string s = canonicalize_string t.
Proof.
  revert t. induction s as [| a s IH]; intros [| b t]; simpl;
    try discriminate; [reflexivity |].
  rewrite andb_true_iff. intros [Hab Hst].
  now rewrite (same_letter_canonicalize _ _ Hab), (IH t Hst).
Qed.

Lemma same_up_to_case_canonical (s : string) :
  Spec.same_up_to_case s (canonicalize_string s) = true.
Proof.
  induction s as [| a s IH]; simpl; [reflexivity |].
  now rewrite same_letter_canonical, IH.
Qed.

(** X3: the type test of [resourceRecord] accepts exactly the defined
    strings that are, letter case apart, one of SOA, AAAA, A, TXT, NS,
    CNAME, MX, PTR, SRV, SPF: same length, and at each place the same
    character or the same letter in the other case.  An undefined type,
    a longer or a shorter string do not pass the test. *)
Theorem X3_valid_type_test_exact (v : option string) :
  valid_type_test v = true <->
  exists s t,
    v = Some s /\
    In t ["SOA"; "AAAA"; "A"; "TXT"; "NS"; "CNAME"; "MX"; "PTR"; "SRV"; "SPF"] /\
    Spec.same_up_to_case s t = true.
Proof.
  destruct v as [s |].
  - rewrite valid_type_test_iff. split.
    + intros Hin. exists s, (canonicalize_string s).
      repeat split; [exact Hin | apply same_up_to_case_canonical].
    + intros (s' & t & [= <-] & Hin & Hsame).
      rewrite (same_up_to_case_canonicalize _ _ Hsame).
      unfold valid_types. simpl in Hin.
      repeat (destruct Hin as [<- | Hin]; [vm_compute; tauto |]).
      contradiction.
  - split; [discriminate | now intros (s & t & Hs & _)].
Qed.

(** The type written [cName] passes the test; the types [AA] and [A ]
    (with a space) pass it no more than an undefined type does. *)
Lemma X3_witness :
  valid_type_test (Some "cName") = true /\
  valid_type_test (Some "AA") = false /\
  valid_type_test (Some "A ") = false /\
  valid_type_test None = false.
Proof.
  split; [| split; [| split]].
  - apply (proj2 (X3_valid_type_test_exact (Some "cName"))).
    exists "cName", "CNAME". repeat split.
    do 5 right. now left.
  - apply not_true_is_false. intros H.
    apply (proj1 (X3_valid_type_test_exact (Some "AA"))) in H.
    destruct H as (s & t & [= <-] & Hin & Hsame).
    simpl in Hin.
    repeat (destruct Hin as [<- | Hin]; [discriminate Hsame |]).
    contradiction.
  - apply not_true_is_false. intros H.
    apply (proj1 (X3_valid_type_test_exact (Some "A "))) in H.
    destruct H as (s & t & [= <-] & Hin & Hsame).
    simpl in Hin.
    repeat (destruct Hin as [<- | Hin]; [discriminate Hsame |]).
    contradiction.
  - apply not_true_is_false. intros H.
    apply (proj1 (X3_valid_type_test_exact None)) in H.
    now destruct H as (s & t & Hs & _).
Defined.


(** ** Zone resolver *)

(** X4: whenever [zoneWhere] hands a zone to the callback, that zone
    satisfies the predicate and is the zone the context holds afterwards;
    so the same lookup made again on that context, with any error
    handler, is answered from the context with no provider call. *)
Theorem X4_zoneWhere_result_is_cached
    (predicate : HostedZone.t -> bool) (errback : option ErrorHandler)
    (ctx : Context) (z : HostedZone.t) :
  outcome (zoneWhere predicate errback ctx) = Callback z ->
  predicate z = true /\
  zone (context (zoneWhere predicate errback ctx)) = Some z /\
  forall errback',
    zoneWhere predicate errback' (context (zoneWhere predicate errback ctx))
      = mkRun [] (Callback z) (context (zoneWhere predicate errback ctx)).
Proof.
  intros Hout.
  assert (Hp : predicate z = true) by exact (zoneWhere_sound _ _ _ Hout).
  assert (Hz : zone (context (zoneWhere predicate errback ctx)) = Some z).
  { destruct (zoneWhere_cases predicate errback ctx)
      as [(c & Hc & _ & Hrun) | [(zones & t & _ & _ & Hrun)
         | [(zones & _ & _ & Hrun) | (r & _ & Hrun)]]];
      rewrite Hrun in Hout |- *; cbn [outcome context] in *;
      try discriminate; injection Hout as ->; [exact Hc | reflexivity]. }
  repeat split; trivial.
  intros errback'. unfold zoneWhere at 1. now rewrite Hz, Hp.
Qed.

Lemma X4_witness :
  hostZone_predicate "www.example.com." Sample.example_com = true /\
  zone (context (zoneWhere (hostZone_predicate "www.example.com.") None
                   (Sample.fresh [Sample.sub_example_com; Sample.example_com]
                                 [])))
    = Some Sample.example_com /\
  forall errback',
    zoneWhere (hostZone_predicate "www.example.com.") errback'
        (context (zoneWhere (hostZone_predicate "www.example.com.") None
                    (Sample.fresh [Sample.sub_example_com; Sample.example_com]
                                  [])))
      = mkRun [] (Callback Sample.example_com)
          (context (zoneWhere (hostZone_predicate "www.example.com.") None
                      (Sample.fresh
                         [Sample.sub_example_com; Sample.example_com] []))).
Proof.
  apply (@X4_zoneWhere_result_is_cached
           (hostZone_predicate "www.example.com.") None
           (Sample.fresh [Sample.sub_example_com; Sample.example_com] [])
           Sample.example_com).
  reflexivity.
Defined.

(** X5: [zoneWhere] sends the provider at most one request, a listing of
    the hosted zones.  When it fails, the message goes to the [errback]
    argument, or to the default handler when there is none, after exactly
    one listing, and the context, the cached zone included, is left as it
    was: a zone that was cached and fails the predicate stays cached. *)
Theorem X5_zoneWhere_failure_keeps_context
    (predicate : HostedZone.t -> bool) (errback : option ErrorHandler)
    (ctx : Context) :
  (calls (zoneWhere predicate errback ctx) = [] \/
   calls (zoneWhere predicate errback ctx) = [listHostedZones]) /\
  (forall handler message,
     outcome (zoneWhere predicate errback ctx) = Errback handler message ->
     handler = or_default errback /\
     calls (zoneWhere predicate errback ctx) = [listHostedZones] /\
     context (zoneWhere predicate errback ctx) = ctx).
Proof.
  split;
    destruct (zoneWhere_cases predicate errback ctx)
      as [(c & _ & _ & Hrun) | [(zones & t & _ & _ & Hrun)
         | [(zones & _ & _ & Hrun) | (r & _ & Hrun)]]];
    rewrite Hrun; cbn [calls outcome context]; auto;
    intros handler message Hout;
    try discriminate; injection Hout as <- _; auto.
Qed.

Lemma X5_witness :
  errbackArgument = or_default (Some errbackArgument) /\
  calls (zoneWhere (hostZone_predicate "www.example.net.")
           (Some errbackArgument)
           {| zone := Some Sample.example_com;
              api := api (Sample.fresh [Sample.sub_example_com] []) |})
    = [listHostedZones] /\
  context (zoneWhere (hostZone_predicate "www.example.net.")
             (Some errbackArgument)
             {| zone := Some Sample.example_com;
                api := api (Sample.fresh [Sample.sub_example_com] []) |})
    = {| zone := Some Sample.example_com;
         api := api (Sample.fresh [Sample.sub_example_com] []) |}.
Proof.
  apply (proj2 (X5_zoneWhere_failure_keeps_context
                  (hostZone_predicate "www.example.net.")
                  (Some errbackArgument)
                  {| zone := Some Sample.example_com;
                     api := api (Sample.fresh [Sample.sub_example_com] []) |})
           errbackArgument ZoneNotFound).
  reflexivity.
Defined.


(** X6: [zoneNamed] does not see whether the name it is given ends with a
    dot, and a zone it hands to the callback is named exactly the name
    with its trailing dot. *)
Theorem X6_zoneNamed_result_name
    (zoneName : string) (errback : option ErrorHandler) (ctx : Context) :
  zoneNamed zoneName errback ctx = zoneNamed (normalize zoneName) errback ctx /\
  (forall z,
     outcome (zoneNamed zoneName errback ctx) = Callback z ->
     HostedZone.Name z = normalize zoneName).
Proof.
  split.
  - unfold zoneNamed. now rewrite normalize_idempotent.
  - intros z Hout. unfold zoneNamed in Hout.
    apply zoneWhere_sound in Hout. now apply String.eqb_eq in Hout.
Qed.

Lemma X6_witness :
  HostedZone.Name Sample.example_com = normalize "example.com".
Proof.
  apply (proj2 (X6_zoneNamed_result_name "example.com" None
                  (Sample.fresh [Sample.sub_example_com; Sample.example_com]
                                []))
           Sample.example_com).
  reflexivity.
Defined.

(** X7: [hostZone] does not see whether the host ends with a dot, and a
    zone it hands to the callback is a proper ancestor of the host: the
    host with its trailing dot is some label, a dot, and the name of the
    zone, so it is strictly longer than the name of the zone. *)
Theorem X7_hostZone_result_is_ancestor
    (host : string) (errback : option ErrorHandler) (ctx : Context) :
  hostZone host errback ctx = hostZone (normalize host) errback ctx /\
  (forall z,
     outcome (hostZone host errback ctx) = Callback z ->
     (exists label,
        normalize host = (label ++ "." ++ HostedZone.Name z)%string) /\
     String.length (HostedZone.Name z) < String.length (normalize host)).
Proof.
  split.
  - unfold hostZone. now rewrite normalize_idempotent.
  - intros z Hout. unfold hostZone in Hout.
    apply zoneWhere_sound, hostZone_predicate_iff in Hout.
    destruct Hout as [label Hlabel]. split; [now exists label |].
    rewrite Hlabel, !length_app. simpl. lia.
Qed.

Lemma X7_witness :
  (exists label,
     normalize "foo.sub.example.com"
       = (label ++ "." ++ HostedZone.Name Sample.sub_example_com)%string) /\
  String.length (HostedZone.Name Sample.sub_example_com)
    < String.length (normalize "foo.sub.example.com").
Proof.
  apply (proj2 (X7_hostZone_result_is_ancestor "foo.sub.example.com" None
                  (Sample.fresh [Sample.sub_example_com; Sample.example_com]
                                []))
           Sample.sub_example_com).
  reflexivity.
Defined.

(** X8: the order of the listing decides between a zone and its parent.
    When the context holds no zone and the parent zone comes first in the
    listing, a host inside the child zone is given to the parent zone,
    whatever the rest of the listing holds. *)
Theorem X8_hostZone_parent_listed_first
    (host label sub : string) (parent child : HostedZone.t)
    (others : list HostedZone.t) (errback : option ErrorHandler)
    (ctx : Context) :
  zone ctx = None ->
  hostedZones (api ctx) = Success (parent :: others) ->
  HostedZone.Name child = (sub ++ "." ++ HostedZone.Name parent)%string ->
  normalize host = (label ++ "." ++ HostedZone.Name child)%string ->
  hostZone host errback ctx
    = mkRun [listHostedZones] (Callback parent)
        {| zone := Some parent; api := api ctx |}.
Proof.
  intros Hcache Hzones Hchild Hhost.
  assert (Hp : hostZone_predicate (normalize host) parent = true).
  { apply hostZone_predicate_iff. exists (label ++ "." ++ sub)%string.
    rewrite Hhost, Hchild. now rewrite !app_assoc_string. }
  unfold hostZone, zoneWhere. rewrite Hcache, Hzones. cbn [Lodash.find].
  now rewrite Hp.
Qed.

Lemma X8_witness :
  hostZone "foo.sub.example.com" None
      (Sample.fresh [Sample.example_com; Sample.sub_example_com] [])
    = mkRun [listHostedZones] (Callback Sample.example_com)
        {| zone := Some Sample.example_com;
           api := api (Sample.fresh
                         [Sample.example_com; Sample.sub_example_com] []) |}.
Proof.
  apply (@X8_hostZone_parent_listed_first
           "foo.sub.example.com" "foo" "sub"
           Sample.example_com Sample.sub_example_com
           [Sample.sub_example_com] None
           (Sample.fresh [Sample.example_com; Sample.sub_example_com] []));
    reflexivity.
Defined.

(** X9: the name of a zone is read as the provider gives it.  A zone
    whose name does not end with a dot is rejected by the predicate of
    [zoneNamed] for every name asked, and, unless its name is empty, by
    the predicate of [hostZone] for every host; a zone whose name is
    empty is accepted by the predicate of [hostZone] for every host. *)
Theorem X9_undotted_zone_is_never_matched (z : HostedZone.t) :
  (Lodash.endsWith (HostedZone.Name z) "." = false ->
   (forall zoneName, zoneNamed_predicate (normalize zoneName) z = false) /\
   (HostedZone.Name z <> EmptyString ->
    forall host, hostZone_predicate (normalize host) z = false)) /\
  (HostedZone.Name z = EmptyString ->
   forall host, hostZone_predicate (normalize host) z = true).
Proof.
  split.
  - intros Hdot. split.
    + intros zoneName. unfold zoneNamed_predicate.
      apply String.eqb_neq. intros Heq.
      rewrite Heq, normalize_ends in Hdot. discriminate.
    + intros Hne host. apply not_true_is_false. intros Hp.
      apply hostZone_predicate_iff in Hp. destruct Hp as [label Hlabel].
      destruct (proj1 (endsWith_iff _ _) (normalize_ends host)) as [q Hq].
      rewrite Hq in Hlabel.
      assert (Hsplit : ((label ++ ".") ++ HostedZone.Name z = q ++ ".")%string)
        by (now rewrite app_assoc_string).
      destruct (suffix_of_dotted _ _ Hsplit Hne) as [r Hr].
      rewrite Hr, endsWith_app in Hdot. discriminate.
  - intros Hempty host. unfold hostZone_predicate. rewrite Hempty.
    apply normalize_ends.
Qed.

Lemma X9_witness :
  zoneNamed_predicate (normalize "example.com") Sample.undotted = false /\
  hostZone_predicate (normalize "www.example.com") Sample.undotted = false /\
  hostZone_predicate (normalize "www.example.com")
    (HostedZone.make "Z0EMPTY" EmptyString) = true.
Proof.
  split; [| split].
  - apply (proj1 (proj1 (X9_undotted_zone_is_never_matched Sample.undotted)
                    eq_refl)).
  - apply (proj2 (proj1 (X9_undotted_zone_is_never_matched Sample.undotted)
                    eq_refl)).
    discriminate.
  - apply (proj2 (X9_undotted_zone_is_never_matched
                    (HostedZone.make "Z0EMPTY" EmptyString))).
    reflexivity.
Defined.

(** ** Record point-resolver *)

(** X10: a record that [resourceRecord] hands to the callback is the
    first record of the page the provider returned for the request; its
    name matches the name asked, its type matches the type asked (any
    type when none was asked), and the next cursor of the page does not
    match the query.  The type asked was undefined or a valid type, and
    exactly one page reply of the provider has been used. *)
Theorem X10_resourceRecord_result_matches_query
    (q : RecordQuery) (errback : option ErrorHandler) (ctx : Context)
    (R : ResourceRecordSet.t) :
  outcome (resourceRecord q errback ctx) = Callback R ->
  (qType q = None \/ valid_type_test (qType q) = true) /\
  recordNameMatch (qName q) (ResourceRecordSet.Name R) = true /\
  recordTypeMatch (qType q) (Some (ResourceRecordSet.Type_ R)) = true /\
  exists data rest,
    recordSetPages (api ctx) = Success data :: rest /\
    nth_error (ResourceRecordSets data) 0 = Some R /\
    nextRecordMatch {| qName := qName q; qType := qType q |}
      {| cName := NextRecordName data; cType := NextRecordType data |}
      = false /\
    recordSetPages (api (context (resourceRecord q errback ctx))) = rest.
Proof.
  intros Hout.
  destruct (resourceRecord_cases q errback ctx)
    as [(t & _ & _ & Hrun) | [Hty Hrun]];
    rewrite Hrun in Hout |- *; [discriminate |].
  split; [exact Hty |].
  destruct (resourceRecord_resolve_cases (qName q) (qType q)
              (or_default errback) ctx)
    as [(z & reply & rest & _ & Hpages & Hres)
       | [(z & _ & _ & Hres) | (message & _ & Hres)]];
    rewrite Hres in Hout |- *; cbn [outcome context] in *;
    try discriminate.
  destruct reply as [data | message]; [| discriminate].
  unfold resourceRecord_reply in Hout.
  destruct (nth_error (ResourceRecordSets data) 0) as [first |] eqn:Hfirst;
    [| discriminate].
  destruct (recordNameMatch (qName q) (ResourceRecordSet.Name first))
    eqn:Hname; [| discriminate].
  destruct (recordTypeMatch (qType q)
              (Some (ResourceRecordSet.Type_ first))) eqn:Htype;
    [| discriminate].
  destruct (nextRecordMatch _ _) eqn:Hnext; [discriminate |].
  injection Hout as <-.
  repeat split; trivial.
  exists data, rest. auto.
Qed.

Lemma X10_witness :
  (Some "A" = None \/ valid_type_test (Some "A") = true) /\
  recordNameMatch "a.example.com" "a.example.com." = true /\
  recordTypeMatch (Some "A") (Some "A") = true /\
  exists data rest,
    [Success Sample.unique_page] = Success data :: rest /\
    nth_error (ResourceRecordSets data) 0 = Some Sample.a_record /\
    nextRecordMatch {| qName := "a.example.com"; qType := Some "A" |}
      {| cName := NextRecordName data; cType := NextRecordType data |}
      = false /\
    recordSetPages
      (api (context
              (resourceRecord {| qName := "a.example.com"; qType := Some "A" |}
                 None
                 (Sample.fresh [Sample.example_com]
                               [Success Sample.unique_page]))))
      = rest.
Proof.
  apply (@X10_resourceRecord_result_matches_query
           {| qName := "a.example.com"; qType := Some "A" |} None
           (Sample.fresh [Sample.example_com] [Success Sample.unique_page])
           Sample.a_record).
  reflexivity.
Defined.

(** X11: [resourceRecord] sends the provider at most two requests and
    never a change: nothing, or one listing of the hosted zones, or,
    after the listing or without it when the context already held the
    zone, one request for record sets.  That request is for at most one
    item of the zone that owns the host, which the context holds from
    then on, and starts at the name and the type of the query as they
    were supplied. *)
Theorem X11_resourceRecord_calls
    (q : RecordQuery) (errback : option ErrorHandler) (ctx : Context) :
  calls (resourceRecord q errback ctx) = [] \/
  calls (resourceRecord q errback ctx) = [listHostedZones] \/
  exists z,
    zone (context (resourceRecord q errback ctx)) = Some z /\
    hostZone_predicate (normalize (qName q)) z = true /\
    (calls (resourceRecord q errback ctx)
       = [listResourceRecordSets
            {| HostedZoneId := Some (HostedZone.Id z);
               MaxItems := Some "1";
               StartRecordName := Some (qName q);
               StartRecordType := qType q |}] \/
     calls (resourceRecord q errback ctx)
       = [listHostedZones;
          listResourceRecordSets
            {| HostedZoneId := Some (HostedZone.Id z);
               MaxItems := Some "1";
               StartRecordName := Some (qName q);
               StartRecordType := qType q |}]).
Proof.
  destruct (resourceRecord_cases q errback ctx)
    as [(t & _ & _ & Hrun) | [Hty Hrun]];
    rewrite Hrun; [now left |].
  destruct (resourceRecord_resolve_cases (qName q) (qType q)
              (or_default errback) ctx)
    as [(z & reply & rest & Hz & _ & Hres)
       | [(z & Hz & _ & Hres) | (message & _ & Hres)]];
    rewrite Hres; cbn [calls context]; [| | now right; left];
    right; right; exists z;
    destruct (hostZone_success _ _ _ Hz) as (Hcache & Hp & [Hc | Hc]);
    rewrite Hc; auto.
Qed.

(** X12: for a query whose type is undefined or valid, a failure of the
    zone lookup (no zone owns the host, or the listing failed) is
    reported to the default handler of the context even when an
    [errback] was supplied, after the one listing and with the context
    unchanged; a failure of the record set request is reported, with the
    message of the provider, to the [errback] when one was supplied. *)
Theorem X12_resourceRecord_error_routing
    (q : RecordQuery) (errback : option ErrorHandler) (ctx : Context) :
  qType q = None \/ valid_type_test (qType q) = true ->
  (forall handler message,
     outcome (hostZone (qName q) None ctx) = Errback handler message ->
     resourceRecord q errback ctx
       = mkRun [listHostedZones] (Errback defaultErrorHandler message) ctx) /\
  (forall z message rest,
     outcome (hostZone (qName q) None ctx) = Callback z ->
     recordSetPages (api ctx) = Failure message :: rest ->
     outcome (resourceRecord q errback ctx)
       = Errback (or_default errback) message).
Proof.
  intros Hty. split.
  - intros handler message Hout.
    rewrite (@resourceRecord_accepted q errback ctx Hty).
    unfold resourceRecord_resolve.
    now rewrite (hostZone_failure _ _ Hout).
  - intros z message rest Hz Hpages.
    now rewrite (@resourceRecord_found q errback ctx z (Failure message) rest
                   Hty Hz Hpages).
Qed.

Lemma X12_witness :
  resourceRecord {| qName := "www.example.net"; qType := None |}
      (Some errbackArgument)
      (Sample.fresh [Sample.example_com] [Success Sample.unique_page])
    = mkRun [listHostedZones] (Errback defaultErrorHandler ZoneNotFound)
        (Sample.fresh [Sample.example_com] [Success Sample.unique_page]) /\
  outcome (resourceRecord {| qName := "a.example.com"; qType := None |}
             (Some errbackArgument)
             (Sample.fresh [Sample.example_com] [Failure "Throttling"]))
    = Errback errbackArgument "Throttling".
Proof.
  split.
  - apply (proj1 (@X12_resourceRecord_error_routing
                    {| qName := "www.example.net"; qType := None |}
                    (Some errbackArgument)
                    (Sample.fresh [Sample.example_com]
                                  [Success Sample.unique_page])
                    (or_introl eq_refl))
             defaultErrorHandler ZoneNotFound).
    reflexivity.
  - apply (proj2 (@X12_resourceRecord_error_routing
                    {| qName := "a.example.com"; qType := None |}
                    (Some errbackArgument)
                    (Sample.fresh [Sample.example_com] [Failure "Throttling"])
                    (or_introl eq_refl))
             Sample.example_com "Throttling" []);
      reflexivity.
Defined.

Lemma recordNameMatch_normalize_l (n other : string) :
  recordNameMatch (normalize n) other = recordNameMatch n other.
Proof. unfold recordNameMatch. now rewrite normalize_idempotent. Qed.

Lemma resourceRecord_reply_normalize rr_name rr_type errback reply :
  resourceRecord_reply (normalize rr_name) rr_type errback reply
    = resourceRecord_reply rr_name rr_type errback reply.
Proof.
  unfold resourceRecord_reply, nextRecordMatch. cbn [qName qType cName cType].
  destruct reply as [data | message]; [| reflexivity].
  destruct (nth_error (ResourceRecordSets data) 0) as [first |];
    [| reflexivity].
  rewrite recordNameMatch_normalize_l.
  destruct (NextRecordName data) as [next |]; [| reflexivity].
  now rewrite recordNameMatch_normalize_l.
Qed.

(** X13: against the same replies of the provider, a query gives the
    same outcome and leaves the same context whether its name is written
    with or without the trailing dot. *)
Theorem X13_resourceRecord_trailing_dot
    (name : string) (type : option string) (errback : option ErrorHandler)
    (ctx : Context) :
  outcome (resourceRecord {| qName := name; qType := type |} errback ctx)
    = outcome (resourceRecord {| qName := normalize name; qType := type |}
                 errback ctx) /\
  context (resourceRecord {| qName := name; qType := type |} errback ctx)
    = context (resourceRecord {| qName := normalize name; qType := type |}
                 errback ctx).
Proof.
  assert (Hresolve : forall rr_type handler,
    outcome (resourceRecord_resolve name rr_type handler ctx)
      = outcome (resourceRecord_resolve (normalize name) rr_type handler ctx) /\
    context (resourceRecord_resolve name rr_type handler ctx)
      = context (resourceRecord_resolve (normalize name) rr_type handler ctx)).
  { intros rr_type handler. unfold resourceRecord_resolve.
    replace (hostZone (normalize name) None ctx) with (hostZone name None ctx)
      by (unfold hostZone; now rewrite normalize_idempotent).
    destruct (outcome (hostZone name None ctx)); [| now split | now split].
    destruct (recordSetPages (api (context (hostZone name None ctx))));
      cbn [outcome context]; [now split |].
    now rewrite resourceRecord_reply_normalize. }
  unfold resourceRecord. cbn [qName qType].
  destruct (valid_type_test type); [apply Hresolve |].
  destruct type; [now split | apply Hresolve].
Qed.

(** ** [currentZone] after a resolution *)

(** X14: after [resourceRecord] has handed a record to the callback, the
    context holds a zone that owns the host of the query, so that
    [currentZone] on that context does not throw, sends nothing to the
    provider and hands that zone to its callback.  On a context that
    holds no zone, after a zone lookup that failed [currentZone] still
    throws, since a failed lookup stores nothing. *)
Theorem X14_currentZone_after_resolution
    (q : RecordQuery) (errback errback' : option ErrorHandler)
    (ctx : Context) :
  (forall R,
     outcome (resourceRecord q errback ctx) = Callback R ->
     exists z,
       hostZone_predicate (normalize (qName q)) z = true /\
       currentZone errback' (context (resourceRecord q errback ctx))
         = Completed (mkRun [] (Callback z)
                        (context (resourceRecord q errback ctx)))) /\
  (forall predicate handler message,
     zone ctx = None ->
     outcome (zoneWhere predicate errback ctx) = Errback handler message ->
     currentZone errback' (context (zoneWhere predicate errback ctx))
       = Thrown "Not zone found in this context").
Proof.
  split.
  - intros R Hout.
    destruct (resourceRecord_cases q errback ctx)
      as [(t & _ & _ & Hrun) | [Hty Hrun]];
      rewrite Hrun in Hout |- *; [discriminate |].
    destruct (resourceRecord_resolve_cases (qName q) (qType q)
                (or_default errback) ctx)
      as [(z & reply & rest & Hz & _ & Hres)
         | [(z & _ & _ & Hres) | (message & _ & Hres)]];
      rewrite Hres in Hout |- *; cbn [outcome context] in *;
      try discriminate.
    destruct (hostZone_success _ _ _ Hz) as (Hcache & Hp & _).
    exists z. split; [exact Hp |].
    unfold currentZone. cbn [set_pages zone]. now rewrite Hcache.
  - intros predicate handler message Hnone Hout.
    destruct (zoneWhere_cases predicate errback ctx)
      as [(c & _ & _ & Hrun) | [(zones & t & _ & _ & Hrun)
         | [(zones & _ & _ & Hrun) | (r & _ & Hrun)]]];
      rewrite Hrun in Hout |- *; cbn [outcome context] in *;
      try discriminate; unfold currentZone; now rewrite Hnone.
Qed.

Lemma X14_witness :
  (exists z,
     hostZone_predicate (normalize "a.example.com") z = true /\
     currentZone None
       (context (resourceRecord {| qName := "a.example.com"; qType := None |}
                   None
                   (Sample.fresh [Sample.example_com]
                                 [Success Sample.unique_page])))
       = Completed
           (mkRun [] (Callback z)
              (context
                 (resourceRecord {| qName := "a.example.com"; qType := None |}
                    None
                    (Sample.fresh [Sample.example_com]
                                  [Success Sample.unique_page]))))) /\
  currentZone None
    (context (zoneWhere (hostZone_predicate "www.example.net.") None
                (Sample.fresh [Sample.example_com] [])))
    = Thrown "Not zone found in this context".
Proof.
  split.
  - apply (proj1 (X14_currentZone_after_resolution
                    {| qName := "a.example.com"; qType := None |} None None
                    (Sample.fresh [Sample.example_com]
                                  [Success Sample.unique_page]))
             Sample.a_record).
    reflexivity.
  - apply (proj2 (X14_currentZone_after_resolution
                    {| qName := "a.example.com"; qType := None |} None None
                    (Sample.fresh [Sample.example_com] []))
             (hostZone_predicate "www.example.net.")
             defaultErrorHandler ZoneNotFound);
      reflexivity.
Defined.

(** ** Record set paginator, on any sequence of replies *)

Section AnyReplies.

Variable z : HostedZone.t.

(** The page with its truncation flag decided. *)
Lemma zoneRecords_events_page options data rest :
  zoneRecords_events z options (Success data :: rest)
    = if IsTruncated data then
        (Requested (zoneRecords_request z options)
           :: map Delivered
                (filter (selected options) (ResourceRecordSets data))
           ++ fst (zoneRecords_events z (next_options options data) rest),
         snd (zoneRecords_events z (next_options options data) rest))
      else
        (Requested (zoneRecords_request z options)
           :: map Delivered
                (filter (selected options) (ResourceRecordSets data))
           ++ [Finished],
         rest).
Proof.
  destruct (IsTruncated data) eqn:Ht.
  - now apply zoneRecords_events_truncated.
  - now apply zoneRecords_events_complete.
Qed.

Lemma zoneRecords_events_ending :
  forall replies options,
    let events := fst (zoneRecords_events z options replies) in
    (exists before,
       events = before ++ [Finished] /\
       finished_of before = [] /\ failures_of before = []) \/
    (exists before message,
       events = before ++ [Failed (or_default (errback_option options)) message] /\
       finished_of before = [] /\ failures_of before = []) \/
    (exists before params,
       events = before ++ [Requested params] /\
       finished_of events = [] /\ failures_of events = [] /\
       snd (zoneRecords_events z options replies) = []).
Proof.
  induction replies as [| reply rest IH]; intros options; cbv zeta.
  - right; right. exists [], (zoneRecords_request z options). now repeat split.
  - destruct reply as [data | message].
    + rewrite zoneRecords_events_page.
      destruct (IsTruncated data).
      * cbn [fst snd].
        destruct (IH (next_options options data))
          as [(before & Hev & Hfin & Hfail)
             | [(before & m & Hev & Hfin & Hfail)
               | (before & p & Hev & Hfin & Hfail & Hrest)]];
          cbv zeta in *.
        -- rewrite Hev. left.
           exists (Requested (zoneRecords_request z options)
                     :: map Delivered
                          (filter (selected options) (ResourceRecordSets data))
                     ++ before).
           repeat split; read_trace; trivial.
           now rewrite app_comm_cons, app_assoc.
        -- rewrite Hev. right; left.
           exists (Requested (zoneRecords_request z options)
                     :: map Delivered
                          (filter (selected options) (ResourceRecordSets data))
                     ++ before), m.
           repeat split; read_trace; trivial.
           now rewrite app_comm_cons, app_assoc.
        -- right; right.
           exists (Requested (zoneRecords_request z options)
                     :: map Delivered
                          (filter (selected options) (ResourceRecordSets data))
                     ++ before), p.
           split; [rewrite Hev; now rewrite app_comm_cons, app_assoc |].
           repeat split; read_trace; trivial.
      * left.
        exists (Requested (zoneRecords_request z options)
                  :: map Delivered
                       (filter (selected options) (ResourceRecordSets data))).
        repeat split; read_trace.
    + right; left.
      exists [Requested (zoneRecords_request z options)], message.
      now repeat split.
Qed.

End AnyReplies.

Section AnyRepliesCounted.

Variable z : HostedZone.t.


Lemma zoneRecords_events_counted :
  forall replies options,
    length (requests_of (fst (zoneRecords_events z options replies)))
    + length (snd (zoneRecords_events z options replies))
    + length (finished_of (fst (zoneRecords_events z options replies)))
    + length (failures_of (fst (zoneRecords_events z options replies)))
    = length replies + 1.
Proof.
  induction replies as [| reply rest IH]; intros options.
  - reflexivity.
  - destruct reply as [data | message].
    + rewrite zoneRecords_events_page. destruct (IsTruncated data).
      * specialize (IH (next_options options data)).
        read_trace. cbn [length]. lia.
      * read_trace. cbn. lia.
    + cbn. lia.
Qed.

Lemma zoneRecords_events_requests :
  forall replies options,
  exists later,
    requests_of (fst (zoneRecords_events z options replies))
      = zoneRecords_request z options :: later /\
    Forall (fun params =>
              HostedZoneId params = Some (HostedZone.Id z) /\
              MaxItems params = None) later.
Proof.
  induction replies as [| reply rest IH]; intros options.
  - exists []. split; [reflexivity | constructor].
  - destruct reply as [data | message].
    + rewrite zoneRecords_events_page. destruct (IsTruncated data).
      * destruct (IH (next_options options data)) as (later & Hreq & Hlater).
        exists (cursor_request z data :: later). split.
        -- read_trace. rewrite Hreq. now rewrite zoneRecords_request_next.
        -- constructor; [now split | exact Hlater].
      * exists []. split; [read_trace | constructor].
    + exists []. split; [reflexivity | constructor].
Qed.

End AnyRepliesCounted.

(** X15: whatever the provider answers, an enumeration ends in at most
    one way.  Either the final callback is called, once and as the last
    action; or the error handler is called, once and as the last action,
    with the [errback] of the options or the default handler; or neither
    is ever called, and then the last action is a request that the
    provider has not answered, every reply having been used. *)
Theorem X15_zoneRecords_one_ending
    (z : HostedZone.t) (options : Options) (ctx : Context) :
  (exists before,
     fst (zoneRecords z options ctx) = before ++ [Finished] /\
     finished_of before = [] /\ failures_of before = []) \/
  (exists before message,
     fst (zoneRecords z options ctx)
       = before ++ [Failed (or_default (errback_option options)) message] /\
     finished_of before = [] /\ failures_of before = []) \/
  (exists before params,
     fst (zoneRecords z options ctx) = before ++ [Requested params] /\
     finished_of (fst (zoneRecords z options ctx)) = [] /\
     failures_of (fst (zoneRecords z options ctx)) = [] /\
     recordSetPages (api (snd (zoneRecords z options ctx))) = []).
Proof.
  rewrite zoneRecords_unfold. cbn [fst snd set_pages api recordSetPages].
  apply zoneRecords_events_ending.
Qed.


(** X17: requests and replies are counted one for one.  The number of
    requests sent is the number of replies used, plus one when the
    enumeration has not ended: requests, unread replies and endings
    together are one more than the replies the provider had. *)
Theorem X17_zoneRecords_requests_counted
    (z : HostedZone.t) (options : Options) (ctx : Context) :
  length (requests_of (fst (zoneRecords z options ctx)))
  + length (recordSetPages (api (snd (zoneRecords z options ctx))))
  + length (finished_of (fst (zoneRecords z options ctx)))
  + length (failures_of (fst (zoneRecords z options ctx)))
  = length (recordSetPages (api ctx)) + 1.
Proof.
  rewrite zoneRecords_unfold. cbn [fst snd set_pages api recordSetPages].
  apply zoneRecords_events_counted.
Qed.

(** X18: the request options of the caller reach the first request only.
    The first request is the zone extended with the request options;
    every later request is for the identifier of the zone itself and
    carries no [MaxItems], whatever the first request carried. *)
Theorem X18_zoneRecords_later_requests
    (z : HostedZone.t) (options : Options) (ctx : Context) :
  exists later,
    requests_of (fst (zoneRecords z options ctx))
      = extend
          {| HostedZoneId := Some (HostedZone.Id z); MaxItems := None;
             StartRecordName := None; StartRecordType := None |}
          (match request_options options with
           | Some o => o
           | None => empty_request
           end)
        :: later /\
    Forall (fun params =>
              HostedZoneId params = Some (HostedZone.Id z) /\
              MaxItems params = None) later.
Proof.
  rewrite zoneRecords_unfold. cbn [fst].
  apply zoneRecords_events_requests.
Qed.

(** A caller that passes [{HostedZoneId: undefined, MaxItems: '5'}]: the
    first request has no zone identifier and asks for five items, the
    request after the truncated page is for the zone, without
    [MaxItems]. *)
Lemma X18_witness :
  exists later,
    requests_of
      (fst (zoneRecords Sample.example_com
              {| request_options :=
                   Some {| optHostedZoneId := present None;
                           optMaxItems := present (Some "5");
                           optStartRecordName := absent;
                           optStartRecordType := absent |};
                 errback_option := None;
                 predicate := None |}
              (Sample.fresh [Sample.example_com]
                 [Success Sample.page1; Success Sample.page3])))
      = {| HostedZoneId := None; MaxItems := Some "5";
           StartRecordName := None; StartRecordType := None |}
        :: later /\
    Forall (fun params =>
              HostedZoneId params = Some (HostedZone.Id Sample.example_com) /\
              MaxItems params = None) later.
Proof.
  exact (X18_zoneRecords_later_requests Sample.example_com
           {| request_options :=
                Some {| optHostedZoneId := present None;
                        optMaxItems := present (Some "5");
                        optStartRecordName := absent;
                        optStartRecordType := absent |};
              errback_option := None;
              predicate := None |}
           (Sample.fresh [Sample.example_com]
              [Success Sample.page1; Success Sample.page3])).
Defined.
